(** * Restock bot: the stock-status reconciliation engine of [restock_bot.py]

    A shallow embedding of the parts of [src/restock_bot.py] that normalise a
    provider response ([parse_stock_response]), reconcile it against the last
    known status ([monitor_restocks]) and answer the [status], [add],
    [remove], [list], [listd] and [debug] commands, followed by the properties
    of the specification that concern them and by further properties of the
    code.

    Conventions of the embedding:
    - a decoded JSON value is a [json]; a JSON number is an integer or a
      [float]: a finite value (a rational), an infinity or NaN, which
      [json.loads] accepts;
    - a Python [dict] decoded from JSON is an association list whose first
      binding of a key is the effective one;
    - Python exceptions are explicit: code that may raise lives in [exc];
    - a Python string is a [string] of UTF-8 bytes; [lower]/[upper] act on
      ASCII letters, and [len] of a message counts code points ([str_len]);
    - the builtin [str()] applied to a JSON value is a parameter [py_str];
    - the clock ([datetime.now()]) is an explicit argument. *)

From Stdlib Require Import ZArith String Ascii List Bool Lia.
From Stdlib Require QArith.
From stdpp Require Import base option list gmap strings pretty fin_maps.


(** ** Python values and the builtins the program applies to them *)

Module Py.

(** A Python [float]: NaN, an infinity or a finite value. *)
Inductive pyfloat : Type :=
| FNaN
| FInf (negative : bool)
| FFinite (q : QArith_base.Q).

#[local] Unset Elimination Schemes.
Inductive json : Type :=
| JNull
| JBool (b : bool)
| JInt (n : Z)
| JStr (s : string)
| JArr (l : list json)
| JObj (m : list (string * json))
| JFloat (f : pyfloat).
#[local] Set Elimination Schemes.

Inductive pyexn : Type :=
| TypeError
| KeyError
| AttributeError
| IndexError.

Inductive exc (A : Type) : Type :=
| Ok (a : A)
| Raise (e : pyexn).
Arguments Ok {A} a.
Arguments Raise {A} e.

#[global] Instance exc_ret : MRet exc := λ A a, Ok a.
#[global] Instance exc_bind : MBind exc := λ A B f m,
  match m with
  | Ok a => f a
  | Raise e => Raise e
  end.

(** [d.get(k)] / [d[k]] / [k in d] on a decoded object. *)
Fixpoint dict_get (k : string) (d : list (string * json)) : option json :=
  match d with
  | [] => None
  | (k', v) :: d' => if String.eqb k k' then Some v else dict_get k d'
  end.

Definition dict_get_default (k : string) (dflt : json) (d : list (string * json)) : json :=
  match dict_get k d with
  | Some v => v
  | None => dflt
  end.

(** [bool(f)], [f == g], [f == n] and [f > 0] on floats: NaN is true, equal
    to nothing (itself included) and not above zero. *)
Definition float_truthy (f : pyfloat) : bool :=
  match f with
  | FFinite q => negb (QArith_base.Qeq_bool q (QArith_base.inject_Z 0))
  | _ => true
  end.

Definition float_eq (f g : pyfloat) : bool :=
  match f, g with
  | FFinite p, FFinite q => QArith_base.Qeq_bool p q
  | FInf a, FInf b => Bool.eqb a b
  | _, _ => false
  end.

Definition float_eq_int (f : pyfloat) (n : Z) : bool :=
  match f with
  | FFinite q => QArith_base.Qeq_bool q (QArith_base.inject_Z n)
  | _ => false
  end.

Definition float_gt0 (f : pyfloat) : bool :=
  match f with
  | FNaN => false
  | FInf negative => negb negative
  | FFinite q => negb (QArith_base.Qle_bool q (QArith_base.inject_Z 0))
  end.

(** [bool(x)] *)
Definition py_truthy (x : json) : bool :=
  match x with
  | JNull => false
  | JBool b => b
  | JInt n => negb (n =? 0)%Z
  | JStr s => negb (String.eqb s "")
  | JArr l => negb (Nat.eqb (length l) 0)
  | JObj m => negb (Nat.eqb (length m) 0)
  | JFloat f => float_truthy f
  end.

Definition Z_of_bool (b : bool) : Z := if b then 1%Z else 0%Z.

(** The NaN of a decoded response; [json.loads] returns one shared object for
    every [NaN] it reads. *)
Definition is_nan (x : json) : bool :=
  match x with
  | JFloat FNaN => true
  | _ => false
  end.

(** [x == y]; [True == 1] and [False == 0] as in Python, and NaN equal to
    nothing.  The elements of two lists and the values of two dicts are
    compared as Python's containers do, identical objects first, so that a
    NaN inside a container matches the NaN inside the other. *)
Fixpoint py_eq (x y : json) {struct x} : bool :=
  match x, y with
  | JNull, JNull => true
  | JBool a, JBool b => Bool.eqb a b
  | JBool a, JInt n => (Z_of_bool a =? n)%Z
  | JInt n, JBool b => (n =? Z_of_bool b)%Z
  | JInt n, JInt m => (n =? m)%Z
  | JFloat f, JFloat g => float_eq f g
  | JFloat f, JInt n => float_eq_int f n
  | JInt n, JFloat f => float_eq_int f n
  | JFloat f, JBool b => float_eq_int f (Z_of_bool b)
  | JBool b, JFloat f => float_eq_int f (Z_of_bool b)
  | JStr s, JStr t => String.eqb s t
  | JArr l, JArr l' =>
      (fix all2 (l l' : list json) {struct l} : bool :=
         match l, l' with
         | [], [] => true
         | a :: l, b :: l' => ((is_nan a && is_nan b) || py_eq a b) && all2 l l'
         | _, _ => false
         end) l l'
  | JObj m, JObj m' =>
      Nat.eqb (length m) (length m') &&
      (fix sub (m : list (string * json)) {struct m} : bool :=
         match m with
         | [] => true
         | (k, v) :: m =>
             match dict_get k m' with
             | Some w => ((is_nan v && is_nan w) || py_eq v w) && sub m
             | None => false
             end
         end) m
  | _, _ => false
  end.

(** Whether a dict holds [k] under the key [k']: the same object, or an
    equal one. *)
Definition py_key_eq (k' k : json) : bool :=
  (is_nan k' && is_nan k) || py_eq k' k.

(** [x > 0]: defined on numbers and booleans, [TypeError] otherwise. *)
Definition py_gt0 (x : json) : exc bool :=
  match x with
  | JInt n => Ok (0 <? n)%Z
  | JBool b => Ok (0 <? Z_of_bool b)%Z
  | JFloat f => Ok (float_gt0 f)
  | _ => Raise TypeError
  end.

(** [x and x > 0] used as a condition. *)
Definition truthy_and_gt0 (x : json) : exc bool :=
  if py_truthy x then py_gt0 x else Ok false.

(** [len(x)] *)
Definition py_len (x : json) : exc nat :=
  match x with
  | JStr s => Ok (String.length s)
  | JArr l => Ok (length l)
  | JObj m => Ok (length m)
  | _ => Raise TypeError
  end.

Fixpoint chars (s : string) : list json :=
  match s with
  | EmptyString => []
  | String c s' => JStr (String c EmptyString) :: chars s'
  end.

(** [for v in x]: the elements of a list, the keys of a dict, the characters
    of a string. *)
Definition py_iter (x : json) : exc (list json) :=
  match x with
  | JStr s => Ok (chars s)
  | JArr l => Ok l
  | JObj m => Ok (map (λ kv, JStr kv.1) m)
  | _ => Raise TypeError
  end.

(** [x[0]] *)
Definition py_getitem0 (x : json) : exc json :=
  match x with
  | JArr (a :: _) => Ok a
  | JArr [] => Raise IndexError
  | JStr (String c _) => Ok (JStr (String c EmptyString))
  | JStr EmptyString => Raise IndexError
  | JObj _ => Raise KeyError
  | _ => Raise TypeError
  end.

Definition is_substring (needle hay : string) : bool :=
  match String.index 0 needle hay with
  | Some _ => true
  | None => false
  end.

(** [k in x] for a string [k] *)
Definition py_in (k : string) (x : json) : exc bool :=
  match x with
  | JObj m => Ok (bool_decide (is_Some (dict_get k m)))
  | JStr s => Ok (is_substring k s)
  | JArr l => Ok (existsb (py_eq (JStr k)) l)
  | _ => Raise TypeError
  end.

(** [x[k]] for a string [k] *)
Definition py_getitem (k : string) (x : json) : exc json :=
  match x with
  | JObj m =>
      match dict_get k m with
      | Some v => Ok v
      | None => Raise KeyError
      end
  | _ => Raise TypeError
  end.

(** The receiver of a [.get(...)] call: only a dict has the method. *)
Definition as_dict (x : json) : exc (list (string * json)) :=
  match x with
  | JObj m => Ok m
  | _ => Raise AttributeError
  end.

(** Keys a dict accepts: [hash(x)] raises on lists and dicts. *)
Definition hashable (x : json) : bool :=
  match x with
  | JArr _ | JObj _ => false
  | _ => true
  end.

(** [s.lower()] and [s.upper()] on the ASCII letters. *)
Definition lower_ascii (c : ascii) : ascii :=
  let n := nat_of_ascii c in
  if (65 <=? n)%nat && (n <=? 90)%nat then ascii_of_nat (n + 32) else c.

Definition upper_ascii (c : ascii) : ascii :=
  let n := nat_of_ascii c in
  if (97 <=? n)%nat && (n <=? 122)%nat then ascii_of_nat (n - 32) else c.

Fixpoint map_string (f : ascii → ascii) (s : string) : string :=
  match s with
  | EmptyString => EmptyString
  | String c s' => String (f c) (map_string f s')
  end.

Definition py_lower : string → string := map_string lower_ascii.
Definition py_upper : string → string := map_string upper_ascii.

(** The one-character string of a line feed. *)
Definition newline : string := String (ascii_of_nat 10) EmptyString.

(** [sep.join(parts)] *)
Fixpoint py_join (sep : string) (parts : list string) : string :=
  match parts with
  | [] => ""
  | [p] => p
  | p :: ps => p +:+ sep +:+ py_join sep ps
  end.

End Py.

Import Py.

(** ** Data model *)

(** One element of [available_locations]: a dict with the keys [locationId],
    [fulfillmentType], [name] and one or both of [pickupQuantity] and
    [inStoreQuantity]. *)
Record store_entry : Type := {
  locationId : json;
  pickupQuantity : option json;
  inStoreQuantity : option json;
  fulfillmentType : json;
  name : option string
}.

(** A status dict: what [check_product_availability] returns and what
    [last_stock_status] holds.  [parse_stock_response] fills every key except
    [error]; the 404 branch fills [available] and [error] only. *)
Record stock_status : Type := {
  available : bool;
  stores : option (list store_entry);
  total_stores : option nat;
  locations_checked : option (list string);
  last_checked : option string;
  error : option string
}.

(** ** Availability normalizer: [RestockBot.parse_stock_response] *)

Section Normalizer.

(** The builtin [str()], as used by the f-strings. *)
Variable py_str : json → string.

(** [existing_location['inStoreQuantity'] = in_store_quantity] on the first
    entry of the list whose [locationId] equals [location_id] (the entry that
    [next(...)] returned; the dict is shared with the list). *)
Fixpoint set_inStoreQuantity (location_id q : json) (acc : list store_entry) : list store_entry :=
  match acc with
  | [] => []
  | loc :: acc' =>
      if py_eq (locationId loc) location_id
      then {| locationId := locationId loc;
              pickupQuantity := pickupQuantity loc;
              inStoreQuantity := Some q;
              fulfillmentType := fulfillmentType loc;
              name := name loc |} :: acc'
      else loc :: set_inStoreQuantity location_id q acc'
  end.

(** [next((loc for loc in available_locations if loc['locationId'] == location_id), None)] *)
Definition existing_location (location_id : json) (acc : list store_entry) : option store_entry :=
  List.find (λ loc, py_eq (locationId loc) location_id) acc.

(** The pickup half of the loop body (lines 212-222). *)
Definition scan_pickup (location_id : json) (location_data : list (string * json))
    (acc : list store_entry) : exc (list store_entry) :=
  match dict_get "availability" location_data with
  | Some availability =>
      av ← as_dict availability;
      let pickup_quantity := dict_get_default "availablePickupQuantity" (JInt 0%Z) av in
      c ← truthy_and_gt0 pickup_quantity;
      if (c : bool)
      then mret (acc ++ [ {| locationId := location_id;
                             pickupQuantity := Some pickup_quantity;
                             inStoreQuantity := None;
                             fulfillmentType := dict_get_default "fulfillmentType" (JStr "PICKUP") av;
                             name := None |} ])
      else mret acc
  | None => mret acc
  end.

(** The in-store half of the loop body (lines 225-238). *)
Definition scan_in_store (location_id : json) (location_data : list (string * json))
    (acc : list store_entry) : exc (list store_entry) :=
  match dict_get "inStoreAvailability" location_data with
  | Some in_store =>
      ins ← as_dict in_store;
      let in_store_quantity := dict_get_default "availableInStoreQuantity" (JInt 0%Z) ins in
      match existing_location location_id acc with
      | Some _ => mret (set_inStoreQuantity location_id in_store_quantity acc)
      | None =>
          c ← truthy_and_gt0 in_store_quantity;
          if (c : bool)
          then mret (acc ++ [ {| locationId := location_id;
                                 pickupQuantity := None;
                                 inStoreQuantity := Some in_store_quantity;
                                 fulfillmentType := JStr "IN_STORE";
                                 name := None |} ])
          else mret acc
      end
  | None => mret acc
  end.

(** One iteration of [for location_data in item['locations']]. *)
Definition scan_location (location_data : json) (acc : list store_entry) : exc (list store_entry) :=
  ld ← as_dict location_data;
  let location_id := dict_get_default "locationId" JNull ld in
  acc1 ← scan_pickup location_id ld acc;
  scan_in_store location_id ld acc1.

Fixpoint scan_locations (locations : list json) (acc : list store_entry) : exc (list store_entry) :=
  match locations with
  | [] => mret acc
  | location_data :: rest =>
      acc' ← scan_location location_data acc;
      scan_locations rest acc'
  end.

(** [location_names]: a dict keyed by the provider's location ids. *)
Fixpoint names_set (k : json) (v : string) (names : list (json * string)) : list (json * string) :=
  match names with
  | [] => [(k, v)]
  | (k', v') :: names' =>
      if py_key_eq k' k then (k', v) :: names' else (k', v') :: names_set k v names'
  end.

Definition names_get (k : json) (dflt : string) (names : list (json * string)) : exc string :=
  if hashable k
  then mret (match List.find (λ kv, py_key_eq kv.1 k) names with
             | Some kv => kv.2
             | None => dflt
             end)
  else Raise TypeError.

(** One iteration of [for loc in data['locations']] (line 244). *)
Definition add_location_name (loc : json) (names : list (json * string)) : exc (list (json * string)) :=
  l ← as_dict loc;
  let v := py_str (dict_get_default "name" (JStr "Unknown") l) +:+ " - " +:+
           py_str (dict_get_default "city" (JStr "Unknown") l) in
  k ← py_getitem "id" loc;
  if hashable k then mret (names_set k v names) else Raise TypeError.

Fixpoint add_location_names (locs : list json) (names : list (json * string)) : exc (list (json * string)) :=
  match locs with
  | [] => mret names
  | loc :: rest =>
      names' ← add_location_name loc names;
      add_location_names rest names'
  end.

Definition location_label (location_id : json) : string :=
  "Location " +:+ py_str location_id.

(** [loc['name'] = location_names.get(loc['locationId'], f"Location {...}")] *)
Definition name_entry (names : list (json * string)) (loc : store_entry) : exc store_entry :=
  n ← names_get (locationId loc) (location_label (locationId loc)) names;
  mret {| locationId := locationId loc;
          pickupQuantity := pickupQuantity loc;
          inStoreQuantity := inStoreQuantity loc;
          fulfillmentType := fulfillmentType loc;
          name := Some n |}.

Fixpoint name_entries (names : list (json * string)) (acc : list store_entry) : exc (list store_entry) :=
  match acc with
  | [] => mret []
  | loc :: rest =>
      loc' ← name_entry names loc;
      rest' ← name_entries names rest;
      mret (loc' :: rest')
  end.

(** One element of the [locations_checked] comprehension (line 255). *)
Definition checked_label (names : list (json * string)) (loc_data : json) : exc string :=
  ld ← as_dict loc_data;
  let location_id := dict_get_default "locationId" JNull ld in
  names_get location_id (location_label location_id) names.

Fixpoint checked_labels (names : list (json * string)) (locations : list json) : exc (list string) :=
  match locations with
  | [] => mret []
  | loc_data :: rest =>
      s ← checked_label names loc_data;
      rest' ← checked_labels names rest;
      mret (s :: rest')
  end.

(** The three ways the function returns without raising. *)
Inductive parse_return : Type :=
| Parsed (result : stock_status)
| NoLocationData
| NoItems.

(** Lines 198-265: the branch taken when [items] is present and non-empty. *)
Definition parse_item (data : list (string * json)) (items : json) (now : string) : exc parse_return :=
  item ← py_getitem0 items;
  has_locations ← py_in "locations" item;
  if negb has_locations then mret NoLocationData else
  item_locations ← py_getitem "locations" item;
  total_locations ← py_len item_locations;
  locations ← py_iter item_locations;
  available_locations ← scan_locations locations [];
  location_names ←
    match dict_get "locations" data with
    | Some top => locs ← py_iter top; add_location_names locs []
    | None => mret []
    end;
  named ← name_entries location_names available_locations;
  checked ← checked_labels location_names locations;
  mret (Parsed {| available := (0 <? length named)%nat;
                  stores := Some named;
                  total_stores := Some total_locations;
                  locations_checked := Some checked;
                  last_checked := Some now;
                  error := None |}).

(** The body of the [try] block (lines 197-270). *)
Definition parse_body (data : json) (now : string) : exc parse_return :=
  match data with
  | JObj d =>
      match dict_get "items" d with
      | Some items =>
          n ← py_len items;
          if (0 <? n)%nat then parse_item d items now else mret NoItems
      | None => mret NoItems
      end
  | _ => mret NoItems
  end.

(** [parse_stock_response(data, sku)]: the [except Exception] handler turns
    every exception of the body into [None]; so do the two early returns. *)
Definition parse_stock_response (data : json) (sku : string) (now : string) : option stock_status :=
  match parse_body data now with
  | Ok (Parsed result) => Some result
  | Ok NoLocationData => None
  | Ok NoItems => None
  | Raise _ => None
  end.

End Normalizer.

(** ** Catalog, Status Store and messages *)

(** One element of [PRODUCTS_TO_MONITOR]; [sku] and [zip_code] are the keys
    every entry has, the others are read with [.get(key, default)]. *)
Record product : Type := {
  sku : string;
  zip_code : string;
  product_name : option string;
  priority : option string;
  category : option string;
  set_name : option string
}.

(** The two module-level stores: the catalog [PRODUCTS_TO_MONITOR] and the
    Status Store [bot.last_stock_status], a dict keyed by [sku]. *)
Record bot_state : Type := {
  PRODUCTS_TO_MONITOR : list product;
  last_stock_status : gmap string stock_status
}.

Record embed_field : Type := {
  field_name : string;
  field_value : string;
  inline : bool
}.

(** A [discord.Embed] (its timestamp is not part of the model). *)
Record embed : Type := {
  title : string;
  description : option string;
  color : Z;
  fields : list embed_field
}.

(** What [channel.send] / [ctx.send] is given. *)
Record message : Type := {
  content : option string;
  msg_embed : option embed
}.

Definition text (s : string) : message := {| content := Some s; msg_embed := None |}.
Definition rich (e : embed) : message := {| content := None; msg_embed := Some e |}.

(** [d.get(key, default)] on an optional key. *)
Definition get_or {A} (dflt : A) (o : option A) : A :=
  match o with
  | Some a => a
  | None => dflt
  end.

(** What the network gave for one request of [check_product_availability]. *)
Inductive http_result : Type :=
| Response (status : Z) (body : option json)
    (** a response; [body] is what [response.json()] returns, [None] when it raises *)
| TimeoutError
    (** [asyncio.TimeoutError] *)
| OtherError.
    (** any other exception of the request *)

Section Bot.

Variable py_str : json → string.
(** The operator mentioned in alerts. *)
Variable USER_ID : string.

(** [{'available': False, 'error': 'Product not found'}] *)
Definition not_found_status : stock_status :=
  {| available := false; stores := None; total_stores := None;
     locations_checked := None; last_checked := None;
     error := Some "Product not found" |}.

(** [RestockBot.check_product_availability] (lines 173-189). *)
Definition check_product_availability (http : http_result) (sku zip_code now : string)
    : option stock_status :=
  match http with
  | Response status body =>
      if (status =? 200)%Z then
        match body with
        | Some data => parse_stock_response py_str data sku now
        | None => None
        end
      else if (status =? 404)%Z then Some not_found_status
      else None
  | TimeoutError => None
  | OtherError => None
  end.

(** The quantity display of one store (lines 343-361 and 468-486). *)
Definition store_line (store : store_entry) : string :=
  let store_name := get_or ("Location " +:+ py_str (locationId store)) (name store) in
  let pickup_qty := get_or (JStr "") (pickupQuantity store) in
  let in_store_qty := get_or (JStr "") (inStoreQuantity store) in
  let qty_info :=
    (if py_truthy pickup_qty
     then [if py_eq pickup_qty (JInt 9999) then "3+" else py_str pickup_qty]
     else []) ++
    (if py_truthy in_store_qty && negb (py_eq in_store_qty pickup_qty)
     then [if py_eq in_store_qty (JInt 9999) then "3+ in-store"
           else py_str in_store_qty +:+ " in-store"]
     else []) in
  let qty_display :=
    match qty_info with
    | [] => ""
    | _ => " (" +:+ py_join ", " qty_info +:+ ")"
    end in
  "• " +:+ store_name +:+ qty_display.

Definition str_nat (n : nat) : string := py_str (JInt (Z.of_nat n)).

(** The store list of a message: the first [limit] stores and a note for the
    others. *)
Definition store_lines (limit : nat) (stores : list store_entry) : list string :=
  map store_line (take limit stores) ++
  (if (limit <? length stores)%nat
   then ["• ... and " +:+ str_nat (length stores - limit) +:+ " more stores"]
   else []).

(** [next((p.get(key, default) for p in PRODUCTS_TO_MONITOR if p['sku'] == sku), default)] *)
Definition catalog_field (catalog : list product) (s : string)
    (key : product → option string) (dflt : string) : string :=
  match List.find (λ p, String.eqb (sku p) s) catalog with
  | Some p => get_or dflt (key p)
  | None => dflt
  end.

Definition alert_theme (priority : string) : string * Z :=
  if String.eqb priority "top" then ("🚨🔥 TOP PRIORITY RESTOCK! 🔥🚨", 0xff0000%Z)
  else if String.eqb priority "high" then ("🎉 HIGH PRIORITY RESTOCK! 🎉", 0xff8800%Z)
  else if String.eqb priority "medium" then ("📦 RESTOCK ALERT! 📦", 0x00ff00%Z)
  else ("📝 Restock Alert", 0x808080%Z).

Definition snormax_url (sku zip_code : string) : string :=
  "https://www.snormax.com/lookup/bestbuy/" +:+ sku +:+ "?title=&image=&zipcode=" +:+ zip_code.

(** The restock notification (lines 303-372). *)
Definition restock_alert (catalog : list product) (p : product) (current_status : stock_status)
    : message :=
  let name := get_or (sku p) (product_name p) in
  let priority := catalog_field catalog (sku p) priority "medium" in
  let category := catalog_field catalog (sku p) category "Unknown" in
  let set_name := catalog_field catalog (sku p) set_name "Unknown" in
  let theme := alert_theme priority in
  let fld n v i := {| field_name := n; field_value := v; inline := i |} in
  let store_fields :=
    match get_or [] (stores current_status) with
    | [] => []
    | store :: more =>
        [fld "Stores with Stock" (str_nat (length (store :: more)) +:+ " stores") true;
         fld "Available Locations" (py_join newline (store_lines 10 (store :: more))) false]
    end in
  {| content := Some ("<@" +:+ USER_ID +:+ ">");
     msg_embed := Some
       {| title := theme.1;
          description := Some ("**" +:+ name +:+ "** is back in stock!");
          color := theme.2;
          fields :=
            [fld "SKU" (sku p) true;
             fld "Zip Code" (zip_code p) true;
             fld "Priority" (py_upper priority) true;
             fld "Category" category true;
             fld "Set" set_name true] ++
            store_fields ++
            [fld "Link" ("[Snormax](" +:+ snormax_url (sku p) (zip_code p) +:+ ")") false] |} |}.

(** ** Reconciler: [RestockBot.monitor_restocks] *)

(** [previous_status.get('available', False)] with
    [previous_status = self.last_stock_status.get(sku, {})]. *)
Definition previous_available (store : gmap string stock_status) (s : string) : bool :=
  match store !! s with
  | Some previous_status => available previous_status
  | None => false
  end.

(** One iteration of [for product in PRODUCTS_TO_MONITOR] (lines 286-376):
    the new Status Store and the messages sent. *)
Definition monitor_product (catalog : list product) (p : product)
    (http : http_result) (now : string) (store : gmap string stock_status)
    : gmap string stock_status * list message :=
  match check_product_availability http (sku p) (zip_code p) now with
  | None => (store, [])
  | Some current_status =>
      (<[sku p := current_status]> store,
       if available current_status && negb (previous_available store (sku p))
       then [restock_alert catalog p current_status]
       else [])
  end.

(** The loop; [net i] and [clock i] are the network's answer to the [i]-th
    request of the cycle and the time of its parse. *)
Fixpoint monitor_loop (catalog : list product) (net : nat → http_result) (clock : nat → string)
    (i : nat) (todo : list product) (store : gmap string stock_status)
    : gmap string stock_status * list message :=
  match todo with
  | [] => (store, [])
  | p :: rest =>
      let r := monitor_product catalog p (net i) (clock i) store in
      let r' := monitor_loop catalog net clock (S i) rest r.1 in
      (r'.1, r.2 ++ r'.2)
  end.

(** One monitoring cycle; [channel] tells whether [get_channel] found the
    channel. *)
Definition monitor_restocks (channel : bool) (net : nat → http_result) (clock : nat → string)
    (st : bot_state) : bot_state * list message :=
  if channel then
    let r := monitor_loop (PRODUCTS_TO_MONITOR st) net clock 0
               (PRODUCTS_TO_MONITOR st) (last_stock_status st) in
    ({| PRODUCTS_TO_MONITOR := PRODUCTS_TO_MONITOR st; last_stock_status := r.1 |}, r.2)
  else (st, []).

End Bot.

(** ** Commands: [status], [add], [remove] *)

Section Commands.

Variable py_str : json → string.

Definition valid_priorities : list string := ["top"; "high"; "medium"; "low"].

(** Truth value of an optional string argument: [None] and [''] are false. *)
Definition given (arg : option string) : bool :=
  match arg with
  | Some s => negb (String.eqb s "")
  | None => false
  end.

Definition str_in (s : string) (l : list string) : bool :=
  existsb (String.eqb s) l.

(** [priority_filter and priority_filter.lower() not in valid_priorities] *)
Definition invalid_filter (priority_filter : option string) : bool :=
  given priority_filter &&
  negb (str_in (py_lower (get_or "" priority_filter)) valid_priorities).

Definition invalid_filter_message : message :=
  text ("Invalid priority filter. Use one of: " +:+ py_join ", " valid_priorities).

(** The [product_info] dict of [check_status]. *)
Record product_info : Type := {
  info_name : string;
  info_sku : string;
  info_priority : string;
  info_status : option stock_status;
  info_zip_code : string
}.

(** [status and status.get('available')] where [status] is [{}] when the
    store has no record. *)
Definition status_available (status : option stock_status) : bool :=
  match status with
  | Some s => available s
  | None => false
  end.

(** Lines 413-434: the products that pass the filter, as [product_info],
    in catalog order. *)
Fixpoint listed_products (store : gmap string stock_status) (priority_filter : option string)
    (catalog : list product) : list product_info :=
  match catalog with
  | [] => []
  | p :: rest =>
      let priority := get_or "medium" (priority p) in
      if given priority_filter &&
         negb (String.eqb (py_lower priority) (py_lower (get_or "" priority_filter)))
      then listed_products store priority_filter rest
      else {| info_name := get_or (sku p) (product_name p);
              info_sku := sku p;
              info_priority := priority;
              info_status := store !! sku p;
              info_zip_code := zip_code p |}
           :: listed_products store priority_filter rest
  end.

Definition available_products (l : list product_info) : list product_info :=
  List.filter (λ i, status_available (info_status i)) l.

Definition unavailable_products (l : list product_info) : list product_info :=
  List.filter (λ i, negb (status_available (info_status i))) l.

Definition snormax_link (i : product_info) : string :=
  "[snormax](" +:+ snormax_url (info_sku i) (info_zip_code i) +:+ ")".

(** The field of one product in a status embed (lines 452-510). *)
Definition status_field (i : product_info) : embed_field :=
  let head :=
    "**Priority:** " +:+ py_upper (info_priority i) +:+ newline +:+
    "**SKU:** " +:+ info_sku i +:+ newline in
  let value :=
    if status_available (info_status i) then
      let stores := get_or [] (info_status i ≫= stores) in
      head +:+
      "**Stores with Stock:** " +:+ str_nat py_str (length stores) +:+ " stores" +:+ newline +:+
      match stores with
      | [] => ""
      | _ => "**Available Locations:**" +:+ newline +:+
             py_join newline (store_lines py_str 8 stores) +:+ newline
      end +:+
      "**Link:** " +:+ snormax_link i
    else
      head +:+
      "**Status:** Out of Stock" +:+ newline +:+
      match info_status i with
      | Some status =>
          "**Total Stores Checked:** " +:+
          match total_stores status with
          | Some n => str_nat py_str n
          | None => "Unknown"
          end +:+ newline
      | None => ""
      end +:+
      "**Link:** " +:+ snormax_link i in
  {| field_name := info_name i; field_value := value; inline := false |}.

Definition more_products_field (n : nat) : embed_field :=
  {| field_name := "⚠️ More Products";
     field_value := "... and " +:+ str_nat py_str n +:+
                    " more products. Use priority filters to see specific items.";
     inline := false |}.

(** [create_status_embed(products, title, color)] (lines 440-520). *)
Definition create_status_embed (products : list product_info) (title : string) (color : Z)
    : option embed :=
  match products with
  | [] => None
  | _ =>
      Some {| title := title;
              description := None;
              color := color;
              fields := map status_field (take 10 products) ++
                        (if (10 <? length products)%nat
                         then [more_products_field (length products - 10)]
                         else []) |}
  end.

(** Lines 522-539: the embeds of the two partitions. *)
Definition status_embeds (l : list product_info) : list embed :=
  let available_products := available_products l in
  let unavailable_products := unavailable_products l in
  option_list
    (create_status_embed available_products
       ("✅ Available Products (" +:+ str_nat py_str (length available_products) +:+ ")")
       0x00ff00%Z) ++
  option_list
    (create_status_embed unavailable_products
       ("❌ Out of Stock Products (" +:+ str_nat py_str (length unavailable_products) +:+ ")")
       0xff0000%Z).

Definition not_checked_message : message :=
  text "No products have been checked yet. Please wait for the first check cycle.".

(** The [status] command: the state it leaves and the messages it sends. *)
Definition check_status (st : bot_state) (priority_filter : option string)
    : bot_state * list message :=
  if Nat.eqb (size (last_stock_status st)) 0 then (st, [not_checked_message])
  else if invalid_filter priority_filter then (st, [invalid_filter_message])
  else
    match status_embeds (listed_products (last_stock_status st) priority_filter
                           (PRODUCTS_TO_MONITOR st)) with
    | [] =>
        (st, [if given priority_filter
              then text ("No " +:+ get_or "" priority_filter +:+
                         " priority products found or checked yet.")
              else text "No products found."])
    | embeds => (st, map rich embeds)
    end.

Definition same_product (s z : string) (p : product) : bool :=
  String.eqb (sku p) s && String.eqb (zip_code p) z.

(** [name or sku] *)
Definition name_or (name : option string) (s : string) : string :=
  if given name then get_or "" name else s.

(** The [add] command. *)
Definition add_product (st : bot_state) (s z : string) (name : option string)
    : bot_state * list message :=
  if existsb (same_product s z) (PRODUCTS_TO_MONITOR st)
  then (st, [text ("Product " +:+ s +:+ " at " +:+ z +:+ " is already being monitored.")])
  else
    ({| PRODUCTS_TO_MONITOR :=
          PRODUCTS_TO_MONITOR st ++
          [ {| sku := s; zip_code := z; product_name := Some (name_or name s);
               priority := None; category := None; set_name := None |} ];
        last_stock_status := last_stock_status st |},
     [text ("Added " +:+ name_or name s +:+ " (SKU: " +:+ s +:+ ") at " +:+ z +:+
            " to monitoring list.")]).

(** [PRODUCTS_TO_MONITOR.pop(i)] at the first [i] whose product matches. *)
Fixpoint pop_first (f : product → bool) (l : list product) : option (product * list product) :=
  match l with
  | [] => None
  | p :: rest =>
      if f p then Some (p, rest)
      else match pop_first f rest with
           | Some (q, rest') => Some (q, p :: rest')
           | None => None
           end
  end.

(** The [remove] command. *)
Definition remove_product (st : bot_state) (s z : string) : bot_state * list message :=
  match pop_first (same_product s z) (PRODUCTS_TO_MONITOR st) with
  | Some (removed_product, rest) =>
      ({| PRODUCTS_TO_MONITOR := rest;
          last_stock_status := delete s (last_stock_status st) |},
       [text ("Removed " +:+ get_or s (product_name removed_product) +:+
              " from monitoring list.")])
  | None =>
      (st, [text ("Product " +:+ s +:+ " at " +:+ z +:+ " not found in monitoring list.")])
  end.

End Commands.

(** ** Commands: [list], [listd], [debug] *)

Section Listings.

Variable py_str : json → string.

(** A continuation byte of a UTF-8 sequence. *)
Definition is_continuation_byte (c : ascii) : bool :=
  let n := nat_of_ascii c in
  (128 <=? n)%nat && (n <? 192)%nat.

(** [len(s)] of a [str]: the number of code points of the UTF-8 bytes. *)
Fixpoint str_len (s : string) : nat :=
  match s with
  | EmptyString => 0
  | String c s' => (if is_continuation_byte c then 0 else 1) + str_len s'
  end.

(** Truth value of a [str]. *)
Definition nonempty (s : string) : bool := negb (String.eqb s "").

(** [priority_groups] before the grouping loop (lines 650-655). *)
Definition empty_groups : list (string * list product) :=
  [("top", []); ("high", []); ("medium", []); ("low", [])].

(** [if priority in priority_groups: priority_groups[priority].append(product)] *)
Definition group_append (p : product) (groups : list (string * list product))
    : list (string * list product) :=
  let priority := get_or "medium" (priority p) in
  map (λ g, if String.eqb g.1 priority then (g.1, g.2 ++ [p]) else g) groups.

(** The grouping loop (lines 657-660). *)
Fixpoint group_products (catalog : list product) (groups : list (string * list product))
    : list (string * list product) :=
  match catalog with
  | [] => groups
  | p :: rest => group_products rest (group_append p groups)
  end.

Definition priority_groups (catalog : list product) : list (string * list product) :=
  group_products catalog empty_groups.

(** [priority_groups[priority]]; the key is one of the four by then. *)
Fixpoint group_of (groups : list (string * list product)) (priority : string) : list product :=
  match groups with
  | [] => []
  | (g, l) :: rest => if String.eqb g priority then l else group_of rest priority
  end.

(** [priorities_to_show] (lines 663-666). *)
Definition priorities_to_show (priority_filter : option string) : list string :=
  if given priority_filter then [py_lower (get_or "" priority_filter)]
  else ["top"; "high"; "medium"; "low"].

(** [priority_emojis.get(priority, ...)] *)
Definition priority_emoji (priority : string) : string :=
  if String.eqb priority "top" then "🔥"
  else if String.eqb priority "high" then "🚨"
  else if String.eqb priority "medium" then "⚠️"
  else if String.eqb priority "low" then "📝"
  else "📦".

Definition list_heading (priority : string) (products : list product) : string :=
  newline +:+ "**" +:+ priority_emoji priority +:+ " " +:+ py_upper priority +:+
  " Priority (" +:+ str_nat py_str (length products) +:+ "):**".

Definition list_line (p : product) : string :=
  "• " +:+ get_or (sku p) (product_name p) +:+ " - " +:+ sku p.

Definition none_found_message (priority : string) : message :=
  text ("No " +:+ priority +:+ " priority products found.").

(** The loop that fills [message_parts] (lines 673-686); [inl] is the message
    of the early return. *)
Fixpoint list_sections (priority_filter : option string) (groups : list (string * list product))
    (to_show : list string) (message_parts : list string) : message + list string :=
  match to_show with
  | [] => inr message_parts
  | priority :: rest =>
      match group_of groups priority with
      | [] =>
          if given priority_filter then inl (none_found_message priority)
          else list_sections priority_filter groups rest message_parts
      | products =>
          list_sections priority_filter groups rest
            (message_parts ++ list_heading priority products :: map list_line products)
      end
  end.

Definition list_header (priority_filter : option string) (catalog : list product) : string :=
  if given priority_filter
  then "**📦 " +:+ py_upper (get_or "" priority_filter) +:+ " Priority Products:**"
  else "**📦 Monitoring " +:+ str_nat py_str (length catalog) +:+ " Products:**".

(** The loop that packs the parts into chunks (lines 707-713):
    [chunks] and [current_chunk] after it. *)
Fixpoint pack_parts (parts : list string) (chunks : list string) (current_chunk : string)
    : list string * string :=
  match parts with
  | [] => (chunks, current_chunk)
  | part :: rest =>
      if (str_len (current_chunk +:+ part +:+ newline) <=? 1950)%nat
      then pack_parts rest chunks (current_chunk +:+ part +:+ newline)
      else pack_parts rest
             (if nonempty current_chunk then chunks ++ [current_chunk] else chunks)
             (part +:+ newline)
  end.

(** [chunks] after the last chunk is flushed (lines 704-716). *)
Definition chunk_parts (parts : list string) : list string :=
  let r := pack_parts parts [] "" in
  if nonempty r.2 then r.1 ++ [r.2] else r.1.

(** Lines 719-728: the header on the first chunk, a continuation header on
    the others. *)
Definition send_chunks (header : string) (chunks : list string) : list message :=
  match chunks with
  | [] => []
  | first :: others =>
      text (header +:+ newline +:+ first) ::
      imap (λ i chunk,
              text ("**📦 Continued (" +:+ str_nat py_str (i + 2) +:+ "/" +:+
                    str_nat py_str (length chunks) +:+ "):**" +:+ newline +:+ chunk))
           others
  end.

Definition not_monitoring_message : message :=
  text "No products are currently being monitored.".

(** The [list] command (lines 634-728). *)
Definition list_products (st : bot_state) (priority_filter : option string) : list message :=
  match PRODUCTS_TO_MONITOR st with
  | [] => [not_monitoring_message]
  | catalog =>
      if invalid_filter priority_filter then [invalid_filter_message]
      else
        match list_sections priority_filter (priority_groups catalog)
                (priorities_to_show priority_filter) [] with
        | inl early => [early]
        | inr [] => [text "No products found."]
        | inr message_parts =>
            let header := list_header priority_filter catalog in
            let full_message := header +:+ py_join newline message_parts in
            if (str_len full_message <=? 2000)%nat then [text full_message]
            else send_chunks header (chunk_parts message_parts)
        end
  end.

(** The colour of a priority in [listd]. *)
Definition priority_color (priority : string) : Z :=
  if String.eqb priority "top" then 0xff0000%Z
  else if String.eqb priority "high" then 0xff8800%Z
  else if String.eqb priority "medium" then 0x00ff00%Z
  else if String.eqb priority "low" then 0x808080%Z
  else 0x0099ff%Z.

(** [l[start:stop]] for [start <= stop <= len(l)]. *)
Definition py_slice {A} (start stop : nat) (l : list A) : list A :=
  take (stop - start) (drop start l).

(** The field of one product in [listd] (lines 814-824). *)
Definition detail_field (p : product) : embed_field :=
  {| field_name := get_or (sku p) (product_name p);
     field_value :=
       "SKU: " +:+ sku p +:+ newline +:+
       "Set: " +:+ get_or "Unknown" (set_name p) +:+ newline +:+
       "Category: " +:+ get_or "Unknown" (category p) +:+ newline +:+
       "Link: [snormax](" +:+ snormax_url (sku p) (zip_code p) +:+ ")";
     inline := true |}.

(** The embeds of one priority in [listd] (lines 783-826). *)
Definition detail_pages (priority : string) (products : list product) : list embed :=
  let products_per_embed := 25%nat in
  let total_pages := ((length products + products_per_embed - 1) / products_per_embed)%nat in
  map (λ page,
         let start_idx := (page * products_per_embed)%nat in
         let end_idx := (start_idx + products_per_embed) `min` length products in
         {| title :=
              priority_emoji priority +:+ " " +:+ py_upper priority +:+
              (if Nat.eqb page 0
               then " Priority Products (" +:+ str_nat py_str (length products) +:+ ")"
               else " Priority Products (Page " +:+ str_nat py_str (page + 1) +:+ "/" +:+
                    str_nat py_str total_pages +:+ ")");
            description := None;
            color := priority_color priority;
            fields := map detail_field (py_slice start_idx end_idx products) |})
      (seq 0 total_pages).

(** The loop that fills [embeds] in [listd] (lines 767-826). *)
Fixpoint listd_sections (priority_filter : option string) (groups : list (string * list product))
    (to_show : list string) (embeds : list embed) : message + list embed :=
  match to_show with
  | [] => inr embeds
  | priority :: rest =>
      match group_of groups priority with
      | [] =>
          if given priority_filter then inl (none_found_message priority)
          else listd_sections priority_filter groups rest embeds
      | products =>
          listd_sections priority_filter groups rest (embeds ++ detail_pages priority products)
      end
  end.

(** The [listd] command (lines 730-833). *)
Definition list_products_detailed (st : bot_state) (priority_filter : option string)
    : list message :=
  match PRODUCTS_TO_MONITOR st with
  | [] => [not_monitoring_message]
  | catalog =>
      if invalid_filter priority_filter then [invalid_filter_message]
      else
        match listd_sections priority_filter (priority_groups catalog)
                (priorities_to_show priority_filter) [] with
        | inl early => [early]
        | inr [] => [text "No products found."]
        | inr embeds => map rich embeds
        end
  end.

(** The text of the [Locations Checked] field of [debug] (lines 604-606). *)
Definition debug_locations_text (checked : list string) : string :=
  py_join newline (take 5 checked) +:+
  (if (5 <? length checked)%nat
   then newline +:+ "... and " +:+ str_nat py_str (length checked - 5) +:+ " more"
   else "").

(** The [debug] command (lines 584-611); field values pass through [str()]
    as [Embed.add_field] does. *)
Definition debug_product (http : http_result) (s z now : string) : list message :=
  match check_product_availability py_str http s z now with
  | Some current_status =>
      let fld n v i := {| field_name := n; field_value := v; inline := i |} in
      [rich {| title := "Debug Information";
               description := None;
               color := 0xff9900%Z;
               fields :=
                 [fld "SKU" s true;
                  fld "Zip Code" z true;
                  fld "Available" (py_str (JBool (available current_status))) true;
                  fld "Total Stores"
                      match total_stores current_status with
                      | Some n => str_nat py_str n
                      | None => "Unknown"
                      end true;
                  fld "Stores with Stock"
                      (str_nat py_str (length (get_or [] (stores current_status)))) true] ++
                 match get_or [] (locations_checked current_status) with
                 | [] => []
                 | checked => [fld "Locations Checked" (debug_locations_text checked) false]
                 end |}]
  | None => [text ("Could not retrieve data for SKU " +:+ s +:+ " at " +:+ z)]
  end.

End Listings.

(** ** Vocabulary of the properties *)

(** The [items] field is a non-empty array. *)
Definition has_items (data : json) : bool :=
  match data with
  | JObj d =>
      match dict_get "items" d with
      | Some (JArr (_ :: _)) => true
      | _ => false
      end
  | _ => false
  end.

(** The identifier the loop reads from one location entry. *)
Definition location_id_of (location_data : json) : json :=
  match location_data with
  | JObj d => dict_get_default "locationId" JNull d
  | _ => JNull
  end.

(** [x > 0] holds of a quantity: a positive integer (or [True]). *)
Definition positive_quantity (q : json) : Prop :=
  truthy_and_gt0 q = Ok true.


(** The per-item [locations] array the loop iterates over. *)
Definition item_locations_of (data : json) : option (list json) :=
  match data with
  | JObj d =>
      match dict_get "items" d with
      | Some items =>
          match item ← py_getitem0 items;
                item_locations ← py_getitem "locations" item;
                py_iter item_locations with
          | Ok locations => Some locations
          | Raise _ => None
          end
      | None => None
      end
  | _ => None
  end.

(** The fetch outcomes for which [check_product_availability] logs and
    returns [None] without looking at a body: a timeout, another exception
    of the request, a status other than 200 and 404. *)
Definition fetch_failure (http : http_result) : bool :=
  match http with
  | Response status _ => negb (status =? 200)%Z && negb (status =? 404)%Z
  | TimeoutError => true
  | OtherError => true
  end.

(** The quantities a listed store carries: a pickup quantity is positive;
    a store without one is an in-store-only entry. *)
Definition quantities_ok (e : store_entry) : Prop :=
  match pickupQuantity e with
  | Some q => positive_quantity q
  | None => is_Some (inStoreQuantity e) ∧ fulfillmentType e = JStr "IN_STORE"
  end.

Definition is_object (x : json) : bool :=
  match x with
  | JObj _ => true
  | _ => false
  end.

(** A status with its [last_checked] replaced. *)
Definition with_clock (now : string) (r : stock_status) : stock_status :=
  {| available := available r; stores := stores r; total_stores := total_stores r;
     locations_checked := locations_checked r; last_checked := Some now;
     error := error r |}.

(** The identity of a catalog entry for [add] and [remove]. *)
Definition pair_of (p : product) : string * string := (sku p, zip_code p).

(** The concatenation of a list of strings. *)
Definition concat_str (l : list string) : string := foldr String.append "" l.

(** The lines of a chunk: each part followed by a line feed. *)
Definition render_lines (parts : list string) : string :=
  concat_str (map (λ part, part +:+ newline) parts).

(** The products [list] and [listd] show under a priority. *)
Definition with_priority (g : string) (catalog : list product) : list product :=
  List.filter (λ p, String.eqb (get_or "medium" (priority p)) g) catalog.

(** A group of parts that fits a chunk: within the limit, or a single part. *)
Definition fits (g : list string) : Prop :=
  str_len (render_lines g) ≤ 1950 ∨ ∃ part, g = [part].

(** ** An instance of [str()] for the concrete examples *)

Module Examples.

(** [str()] on the scalars: exact for [None], booleans, integers, strings,
    NaN and the infinities; containers and finite floats are rendered by a
    placeholder. *)
Definition str_scalar (x : json) : string :=
  match x with
  | JNull => "None"
  | JBool true => "True"
  | JBool false => "False"
  | JInt n => pretty n
  | JStr s => s
  | JArr _ => "[...]"
  | JObj _ => "{...}"
  | JFloat FNaN => "nan"
  | JFloat (FInf false) => "inf"
  | JFloat (FInf true) => "-inf"
  | JFloat (FFinite _) => "<float>"
  end.

Definition obj_location (id : Z) (fields : list (string * json)) : json :=
  JObj (("locationId", JInt id) :: fields).

Definition pickup (q : Z) : string * json :=
  ("availability", JObj [("availablePickupQuantity", JInt q)]).

Definition in_store (q : Z) : string * json :=
  ("inStoreAvailability", JObj [("availableInStoreQuantity", JInt q)]).

(** A provider response with one item and the given per-item locations. *)
Definition response_of (locations : list json) : json :=
  JObj [("items", JArr [JObj [("locations", JArr locations)]])].

(** One location whose id is NaN, with pickup and in-store stock. *)
Definition nan_response : json :=
  response_of [JObj [("locationId", JFloat FNaN); pickup 1; in_store 1]].

(** Two locations: pickup and in-store stock at the first, in-store stock
    only at the second. *)
Definition merge_and_append_response : json :=
  response_of [obj_location 1 [pickup 2; in_store 5]; obj_location 2 [in_store 3]].

(** The response of the specification's worked example. *)
Definition store_a_response : json :=
  JObj [("items", JArr [JObj [("locations", JArr [obj_location 1 [pickup 2]])]]);
        ("locations", JArr [JObj [("id", JInt 1); ("name", JStr "Store A"); ("city", JStr "X")]])].

(** What the worked example normalizes to at time ["t"]. *)
Definition store_a_record : stock_status :=
  {| available := true;
     stores := Some [ {| locationId := JInt 1;
                         pickupQuantity := Some (JInt 2);
                         inStoreQuantity := None;
                         fulfillmentType := JStr "PICKUP";
                         name := Some "Store A - X" |} ];
     total_stores := Some 1%nat;
     locations_checked := Some ["Store A - X"];
     last_checked := Some "t";
     error := None |}.

(** A monitored product. *)
Definition abc : product :=
  {| sku := "ABC"; zip_code := "90503"; product_name := Some "Widget";
     priority := Some "high"; category := None; set_name := None |}.

(** The same sku watched at a second zip code. *)
Definition abc_elsewhere : product :=
  {| sku := "ABC"; zip_code := "10001"; product_name := Some "Widget (NY)";
     priority := Some "high"; category := None; set_name := None |}.

(** A catalog of [n] products [P0], [P1], ... at one zip code, and a Status
    Store in which every one of them is in stock. *)
Definition numbered (i : nat) : product :=
  {| sku := "P" +:+ pretty i; zip_code := "90503"; product_name := None;
     priority := None; category := None; set_name := None |}.

Definition all_in_stock (n : nat) : bot_state :=
  {| PRODUCTS_TO_MONITOR := map numbered (seq 0 n);
     last_stock_status :=
       list_to_map (map (λ i, (sku (numbered i), store_a_record)) (seq 0 n)) |}.

(** A bot that watches one product and has checked nothing yet. *)
Definition watching : bot_state :=
  {| PRODUCTS_TO_MONITOR := [abc]; last_stock_status := ∅ |}.

(** The same sku watched at two zip codes. *)
Definition watching_twice : bot_state :=
  {| PRODUCTS_TO_MONITOR := [abc; abc_elsewhere]; last_stock_status := ∅ |}.

(** Networks: every request times out; every request finds stock; the first
    request finds stock and the others none. *)
Definition timeouts : nat → http_result := λ _, TimeoutError.
Definition in_stock_everywhere : nat → http_result :=
  λ _, Response 200 (Some store_a_response).
Definition in_stock_first : nat → http_result :=
  λ i, match i with
       | O => Response 200 (Some store_a_response)
       | S _ => Response 200 (Some (response_of [obj_location 1 []]))
       end.

Definition at_t : nat → string := λ _, "t".
Definition at_u : nat → string := λ _, "u".


End Examples.

(** ** Properties of the normalizer *)

Ltac unfold_exc := unfold mbind, exc_bind, mret, exc_ret in *.

Example parse_store_a :
  parse_stock_response Examples.str_scalar Examples.store_a_response "ABC" "t" =
  Some Examples.store_a_record.
Proof. reflexivity. Qed.

Section NormalizerFacts.

Variable py_str : json → string.

Lemma locations_not_in_char (c : ascii) :
  is_substring "locations" (String c EmptyString) = false.
Proof.
  destruct c as [[] [] [] [] [] [] [] []]; reflexivity.
Qed.

Lemma parse_body_no_items (data : json) (now : string) :
  has_items data = false →
  parse_body py_str data now = Ok NoItems ∨
  parse_body py_str data now = Ok NoLocationData ∨
  ∃ e, parse_body py_str data now = Raise e.
Proof.
  intros H. destruct data as [| | | |l|d|]; cbn; auto.
  cbn in H. destruct (dict_get "items" d) as [items|]; auto.
  destruct items as [|b|n|s|l|m|]; cbn; eauto.
  - destruct s as [|c s]; cbn; auto.
    rewrite locations_not_in_char. cbn. auto.
  - destruct l; [cbn; auto | discriminate].
  - destruct m; cbn; eauto.
Qed.

Lemma py_eq_refl_hashable (x : json) :
  hashable x = true → is_nan x = false → py_eq x x = true.
Proof.
  destruct x as [|b|n|s|l|m|f]; cbn; try discriminate; intros _ Hnan.
  - reflexivity.
  - destruct b; reflexivity.
  - apply Z.eqb_refl.
  - apply String.eqb_refl.
  - destruct f as [|negative|q]; cbn.
    + discriminate.
    + by destruct negative.
    + apply QArith_base.Qeq_bool_refl.
Qed.


Lemma set_inStoreQuantity_ids (lid q : json) (acc : list store_entry) :
  map locationId (set_inStoreQuantity lid q acc) = map locationId acc.
Proof.
  induction acc as [|loc acc IH]; cbn; [reflexivity|].
  destruct (py_eq (locationId loc) lid); cbn; [reflexivity | by rewrite IH].
Qed.

Lemma set_inStoreQuantity_pickup (lid q : json) (acc : list store_entry) :
  map pickupQuantity (set_inStoreQuantity lid q acc) = map pickupQuantity acc.
Proof.
  induction acc as [|loc acc IH]; cbn; [reflexivity|].
  destruct (py_eq (locationId loc) lid); cbn; [reflexivity | by rewrite IH].
Qed.

Lemma existing_location_app (lid : json) (acc : list store_entry) (e : store_entry) :
  py_eq (locationId e) lid = true →
  is_Some (existing_location lid (acc ++ [e])).
Proof.
  intros He. unfold existing_location.
  induction acc as [|loc acc IH]; cbn.
  - rewrite He. eauto.
  - destruct (py_eq (locationId loc) lid); eauto.
Qed.

Lemma scan_pickup_inv (lid : json) (ld : list (string * json)) (acc acc1 : list store_entry) :
  scan_pickup lid ld acc = Ok acc1 →
  acc1 = acc ∨
  ∃ av, dict_get "availability" ld = Some (JObj av) ∧
        positive_quantity (dict_get_default "availablePickupQuantity" (JInt 0) av) ∧
        acc1 = acc ++ [ {| locationId := lid;
                           pickupQuantity := Some (dict_get_default "availablePickupQuantity" (JInt 0) av);
                           inStoreQuantity := None;
                           fulfillmentType := dict_get_default "fulfillmentType" (JStr "PICKUP") av;
                           name := None |} ].
Proof.
  unfold scan_pickup. intros H. unfold_exc.
  destruct (dict_get "availability" ld) as [availability|]; [|left; cbn in H; congruence].
  destruct availability as [| | | | |av|]; try discriminate. cbn in H.
  destruct (truthy_and_gt0 _) as [c|] eqn:Hc; cbn in H; [|discriminate].
  destruct c; cbn in H; injection H as <-; [right | by left].
  exists av. by repeat split.
Qed.

Lemma scan_in_store_inv (lid : json) (ld : list (string * json)) (acc acc2 : list store_entry) :
  scan_in_store lid ld acc = Ok acc2 →
  acc2 = acc ∨
  (∃ ins, dict_get "inStoreAvailability" ld = Some (JObj ins) ∧
          is_Some (existing_location lid acc) ∧
          acc2 = set_inStoreQuantity lid
                   (dict_get_default "availableInStoreQuantity" (JInt 0) ins) acc) ∨
  (∃ ins, dict_get "inStoreAvailability" ld = Some (JObj ins) ∧
          existing_location lid acc = None ∧
          positive_quantity (dict_get_default "availableInStoreQuantity" (JInt 0) ins) ∧
          acc2 = acc ++ [ {| locationId := lid;
                             pickupQuantity := None;
                             inStoreQuantity := Some (dict_get_default "availableInStoreQuantity" (JInt 0) ins);
                             fulfillmentType := JStr "IN_STORE";
                             name := None |} ]).
Proof.
  unfold scan_in_store. intros H. unfold_exc.
  destruct (dict_get "inStoreAvailability" ld) as [in_store|]; [|left; cbn in H; congruence].
  destruct in_store as [| | | | |ins|]; try discriminate. cbn in H.
  destruct (existing_location lid acc) as [e|] eqn:He.
  - injection H as <-. right; left. exists ins. eauto.
  - destruct (truthy_and_gt0 _) as [c|] eqn:Hc; cbn in H; [|discriminate].
    destruct c; cbn in H; injection H as <-; [|by left].
    right; right. exists ins. by repeat split.
Qed.

(** One location entry whose identifier equals itself adds at most one store,
    under that identifier. *)
Lemma scan_location_ids (ld : json) (acc acc' : list store_entry) :
  py_eq (location_id_of ld) (location_id_of ld) = true →
  scan_location ld acc = Ok acc' →
  map locationId acc' = map locationId acc ∨
  map locationId acc' = map locationId acc ++ [location_id_of ld].
Proof.
  intros Hh H. unfold scan_location in H. unfold_exc.
  destruct ld as [| | | | |d|]; try discriminate. cbn in H, Hh.
  set (lid := dict_get_default "locationId" JNull d) in *.
  destruct (scan_pickup lid d acc) as [acc1|] eqn:H1; cbn in H; [|discriminate].
  apply scan_pickup_inv in H1. apply scan_in_store_inv in H.
  destruct H1 as [->|(av & _ & _ & ->)].
  - destruct H as [->|[(ins & _ & _ & ->)|(ins & _ & _ & _ & ->)]].
    + by left.
    + left. apply set_inStoreQuantity_ids.
    + right. by rewrite map_app.
  - right.
    destruct H as [->|[(ins & _ & _ & ->)|(ins & _ & Hnone & _)]].
    + by rewrite map_app.
    + rewrite set_inStoreQuantity_ids. by rewrite map_app.
    + exfalso.
      pose proof (existing_location_app lid acc
                    {| locationId := lid;
                       pickupQuantity := Some (dict_get_default "availablePickupQuantity" (JInt 0) av);
                       inStoreQuantity := None;
                       fulfillmentType := dict_get_default "fulfillmentType" (JStr "PICKUP") av;
                       name := None |} Hh) as Hsome.
      rewrite Hnone in Hsome. by destruct Hsome.
Qed.

Lemma scan_locations_ids (locations : list json) (acc acc' : list store_entry) :
  Forall (λ ld, py_eq (location_id_of ld) (location_id_of ld) = true) locations →
  scan_locations locations acc = Ok acc' →
  ∃ new, map locationId acc' = map locationId acc ++ new ∧
         sublist new (map location_id_of locations).
Proof.
  intros Hh. revert acc.
  induction Hh as [|ld locations Hld _ IH]; intros acc H; cbn in H; unfold_exc.
  - injection H as <-. exists []. by rewrite app_nil_r.
  - destruct (scan_location ld acc) as [acc1|] eqn:H1; cbn in H; [|discriminate].
    destruct (IH _ H) as (new & Hnew & Hsub).
    destruct (scan_location_ids _ _ _ Hld H1) as [E|E]; rewrite E in Hnew.
    + exists new. split; [done|]. by apply sublist_cons.
    + exists (location_id_of ld :: new). split.
      * by rewrite Hnew, <- app_assoc.
      * by apply sublist_skip.
Qed.

Lemma name_entries_inv (names : list (json * string)) (acc named : list store_entry) :
  name_entries py_str names acc = Ok named →
  map locationId named = map locationId acc ∧
  map pickupQuantity named = map pickupQuantity acc ∧
  map inStoreQuantity named = map inStoreQuantity acc.
Proof.
  revert named. induction acc as [|loc acc IH]; intros named H; cbn in H; unfold_exc.
  - by injection H as <-.
  - unfold name_entry in H. unfold_exc.
    destruct (names_get _ _ _) as [n|]; [|discriminate].
    destruct (name_entries py_str names acc) as [rest|]; [|discriminate].
    injection H as <-. destruct (IH _ eq_refl) as (E1 & E2 & E3).
    cbn. by rewrite E1, E2, E3.
Qed.

Lemma checked_labels_inv (names : list (json * string)) (locations : list json)
    (checked : list string) :
  checked_labels py_str names locations = Ok checked →
  Forall (λ ld, hashable (location_id_of ld) = true) locations.
Proof.
  revert checked. induction locations as [|ld locations IH]; intros checked H.
  - constructor.
  - cbn in H. unfold checked_label, names_get in H. unfold_exc.
    destruct ld as [| | | | |d|]; try discriminate. cbn in H.
    destruct (hashable (dict_get_default "locationId" JNull d)) eqn:Hh; [|discriminate].
    destruct (checked_labels py_str names locations) as [rest|]; [|discriminate].
    constructor; [exact Hh | by eapply IH].
Qed.

Lemma length_chars (s : string) : length (chars s) = String.length s.
Proof. induction s as [|c s IH]; cbn; [reflexivity | by rewrite IH]. Qed.

Lemma py_iter_len (x : json) (l : list json) (n : nat) :
  py_iter x = Ok l → py_len x = Ok n → length l = n.
Proof.
  destruct x; cbn; intros [= <-] [= <-]; auto using length_chars.
  by rewrite length_map.
Qed.

(** What a successful parse went through. *)
Lemma parse_stock_response_inv (data : json) (sku now : string) (r : stock_status) :
  parse_stock_response py_str data sku now = Some r →
  ∃ d items item item_locations locations acc names named checked,
    data = JObj d ∧
    dict_get "items" d = Some items ∧
    py_getitem0 items = Ok item ∧
    py_getitem "locations" item = Ok item_locations ∧
    py_iter item_locations = Ok locations ∧
    scan_locations locations [] = Ok acc ∧
    name_entries py_str names acc = Ok named ∧
    checked_labels py_str names locations = Ok checked ∧
    r = {| available := (0 <? length named)%nat;
           stores := Some named;
           total_stores := Some (length locations);
           locations_checked := Some checked;
           last_checked := Some now;
           error := None |}.
Proof.
  unfold parse_stock_response, parse_body. intros H.
  destruct data as [| | | | |d|]; try discriminate.
  destruct (dict_get "items" d) as [items|] eqn:Hitems; [|discriminate].
  unfold_exc.
  destruct (py_len items) as [n|]; [|discriminate].
  destruct (0 <? n)%nat; [|discriminate].
  unfold parse_item in H. unfold_exc.
  destruct (py_getitem0 items) as [item|] eqn:Hitem; [|discriminate].
  destruct (py_in "locations" item) as [has|]; [|discriminate].
  destruct has; cbn in H; [|discriminate].
  destruct (py_getitem "locations" item) as [item_locations|] eqn:Hlocs; [|discriminate].
  destruct (py_len item_locations) as [total|] eqn:Htotal; [|discriminate].
  destruct (py_iter item_locations) as [locations|] eqn:Hiter; [|discriminate].
  destruct (scan_locations locations []) as [acc|] eqn:Hscan; [|discriminate].
  destruct (match dict_get "locations" d with Some _ => _ | None => _ end)
    as [names|]; [|discriminate].
  destruct (name_entries py_str names acc) as [named|] eqn:Hnamed; [|discriminate].
  destruct (checked_labels py_str names locations) as [checked|] eqn:Hchecked; [|discriminate].
  injection H as <-.
  rewrite <- (py_iter_len _ _ _ Hiter Htotal).
  by exists d, items, item, item_locations, locations, acc, names, named, checked.
Qed.

(** When no location id is NaN, the stores of a parsed record come from
    distinct location entries, in the order of the provider's array. *)
Lemma parsed_stores_sublist (locations : list json) (acc named : list store_entry)
    (names : list (json * string)) (checked : list string) :
  Forall (λ ld, is_nan (location_id_of ld) = false) locations →
  scan_locations locations [] = Ok acc →
  name_entries py_str names acc = Ok named →
  checked_labels py_str names locations = Ok checked →
  sublist (map locationId named) (map location_id_of locations).
Proof.
  intros Hnan Hscan Hnamed Hchecked.
  apply checked_labels_inv in Hchecked.
  assert (Forall (λ ld, py_eq (location_id_of ld) (location_id_of ld) = true) locations)
    as Hself.
  { apply Forall_forall. intros ld Hld. rewrite Forall_forall in Hnan, Hchecked.
    apply py_eq_refl_hashable; auto. }
  destruct (scan_locations_ids _ _ _ Hself Hscan) as (new & E & Hsub).
  apply name_entries_inv in Hnamed as (-> & _). by rewrite E.
Qed.

Lemma scan_location_length (ld : json) (acc acc' : list store_entry) :
  scan_location ld acc = Ok acc' → length acc' ≤ length acc + 2.
Proof.
  intros H. unfold scan_location in H. unfold_exc.
  destruct ld as [| | | | |d|]; try discriminate. cbn in H.
  set (lid := dict_get_default "locationId" JNull d) in *.
  destruct (scan_pickup lid d acc) as [acc1|] eqn:H1; cbn in H; [|discriminate].
  assert (length acc1 ≤ length acc + 1) as L1.
  { apply scan_pickup_inv in H1 as [->|(av & _ & _ & ->)]; [lia|].
    rewrite length_app. cbn. lia. }
  apply scan_in_store_inv in H as [->|[(ins & _ & _ & ->)|(ins & _ & _ & _ & ->)]].
  - lia.
  - rewrite <- (length_map locationId), set_inStoreQuantity_ids, length_map. lia.
  - rewrite length_app. cbn. lia.
Qed.

Lemma scan_locations_length (locations : list json) (acc acc' : list store_entry) :
  scan_locations locations acc = Ok acc' →
  length acc' ≤ length acc + 2 * length locations.
Proof.
  revert acc. induction locations as [|ld locations IH]; intros acc H; cbn in H;
    unfold_exc.
  - injection H as <-. lia.
  - destruct (scan_location ld acc) as [acc1|] eqn:H1; [|discriminate].
    apply scan_location_length in H1. apply IH in H. cbn [length]. lia.
Qed.



(** C5: the invariant [total_stores >= len(stores)] fails on the code for a
    location whose [locationId] is NaN: with pickup and in-store stock the
    pickup entry just appended is not found again (NaN equals nothing), a
    second entry is appended, and the record lists two stores out of one
    location checked. *)
Theorem C5_nan_location_id_lists_two_stores :
  parse_stock_response Examples.str_scalar Examples.nan_response "ABC" "t" =
  Some {| available := true;
          stores := Some [ {| locationId := JFloat FNaN;
                              pickupQuantity := Some (JInt 1);
                              inStoreQuantity := None;
                              fulfillmentType := JStr "PICKUP";
                              name := Some "Location nan" |};
                           {| locationId := JFloat FNaN;
                              pickupQuantity := None;
                              inStoreQuantity := Some (JInt 1);
                              fulfillmentType := JStr "IN_STORE";
                              name := Some "Location nan" |} ];
          total_stores := Some 1%nat;
          locations_checked := Some ["Location nan"];
          last_checked := Some "t";
          error := None |}.
Proof. reflexivity. Qed.


(** C7: when [items] is missing, not an array or an empty array, the
    normalizer returns [None], its only failure value; no exception leaves
    it (the body returns early or its exception is caught). *)
Theorem C7_no_items_returns_None (data : json) (sku now : string) :
  has_items data = false →
  parse_stock_response py_str data sku now = None.
Proof.
  intros H. unfold parse_stock_response.
  destruct (parse_body_no_items data now H) as [->|[->|[e ->]]]; reflexivity.
Qed.

End NormalizerFacts.

Lemma C7_no_items_returns_None_witness :
  has_items (JObj [("items", JArr [])]) = false ∧
  parse_stock_response Examples.str_scalar (JObj [("items", JArr [])]) "ABC" "t" = None.
Proof.
  split; [reflexivity|].
  apply (C7_no_items_returns_None Examples.str_scalar (JObj [("items", JArr [])]) "ABC" "t").
  reflexivity.
Defined.

(** ** Properties of the reconciler *)

Section ReconcilerFacts.

Variable py_str : json → string.
Variable USER_ID : string.

Local Abbreviation check := (check_product_availability py_str).
Local Abbreviation monitor := (monitor_product py_str USER_ID).

(** The time of the parse only shows in [last_checked]. *)
Lemma parse_stock_response_clock (data : json) (sku now now' : string) :
  match parse_stock_response py_str data sku now,
        parse_stock_response py_str data sku now' with
  | Some r, Some r' => available r = available r'
  | None, None => True
  | _, _ => False
  end.
Proof.
  unfold parse_stock_response, parse_body.
  destruct data as [| | | | |d|]; try exact I.
  destruct (dict_get "items" d) as [items|]; [|exact I].
  unfold_exc.
  destruct (py_len items) as [n|]; [|exact I].
  destruct (0 <? n)%nat; [|exact I].
  unfold parse_item. unfold_exc.
  destruct (py_getitem0 items) as [item|]; [|exact I].
  destruct (py_in "locations" item) as [[]|]; cbn; try exact I.
  destruct (py_getitem "locations" item) as [il|]; [|exact I].
  destruct (py_len il); [|exact I].
  destruct (py_iter il) as [locations|]; [|exact I].
  destruct (scan_locations locations []) as [acc|]; [|exact I].
  destruct (match dict_get "locations" d with Some _ => _ | None => _ end)
    as [names|]; [|exact I].
  destruct (name_entries py_str names acc); [|exact I].
  destruct (checked_labels py_str names locations); [|exact I].
  reflexivity.
Qed.

Lemma check_clock (http : http_result) (s z now now' : string) :
  match check http s z now, check http s z now' with
  | Some r, Some r' => available r = available r'
  | None, None => True
  | _, _ => False
  end.
Proof.
  destruct http as [status body| |]; cbn; try exact I.
  destruct (status =? 200)%Z.
  - destruct body as [data|]; [apply parse_stock_response_clock | exact I].
  - destruct (status =? 404)%Z; [reflexivity | exact I].
Qed.

Lemma fetch_failure_None (http : http_result) (s z now : string) :
  fetch_failure http = true → check http s z now = None.
Proof.
  destruct http as [status body| |]; cbn; try done.
  intros [H1 H2]%andb_true_iff.
  apply negb_true_iff in H1, H2. by rewrite H1, H2.
Qed.

(** C1: an iteration sends the restock alert exactly when the fetch gave a
    record with [available] true and the store's previous record for the
    product's sku is absent or has [available] false; it sends nothing else. *)
Theorem C1_restock_transition_law (catalog : list product) (p : product)
    (http : http_result) (now : string) (store : gmap string stock_status) :
  let sent := (monitor catalog p http now store).2 in
  (sent ≠ [] ↔
   ∃ current, check http (sku p) (zip_code p) now = Some current ∧
              available current = true ∧
              (store !! sku p = None ∨
               ∃ previous, store !! sku p = Some previous ∧ available previous = false)) ∧
  (∀ current, check http (sku p) (zip_code p) now = Some current →
     sent = if available current && negb (previous_available store (sku p))
            then [restock_alert py_str USER_ID catalog p current] else []) ∧
  (∀ previous, store !! sku p = Some previous → available previous = true → sent = []) ∧
  (∀ current, check http (sku p) (zip_code p) now = Some current →
     available current = false → sent = []).
Proof.
  cbn. unfold monitor_product, previous_available.
  destruct (check http (sku p) (zip_code p) now) as [current|]; cbn.
  - repeat split.
    + intros Hsent. exists current. split; [done|].
      destruct (available current); [|done]. split; [done|].
      destruct (store !! sku p) as [previous|]; [|by left].
      right. exists previous. split; [done|]. by destruct (available previous).
    + intros (c & [= <-] & -> & [->|(previous & -> & ->)]); done.
    + by intros c [= <-].
    + intros previous -> ->. by rewrite andb_false_r.
    + by intros c [= <-] ->.
  - repeat split; try done.
    by intros (c & ? & _).
Qed.

(** C8: reconciling a product twice in a row against the same response
    sends nothing the second time, and while the stored record of the sku
    says available no reconciliation of the product sends an alert. *)
Theorem C8_second_reconciliation_is_silent (catalog : list product) (p : product)
    (http : http_result) (now1 now2 : string) (store : gmap string stock_status) :
  let first := monitor catalog p http now1 store in
  let second := monitor catalog p http now2 first.1 in
  second.2 = [] ∧
  (∀ current, check http (sku p) (zip_code p) now1 = Some current →
     ∃ current', check http (sku p) (zip_code p) now2 = Some current' ∧
                 available current' = available current ∧
                 second.1 !! sku p = Some current') ∧
  (∀ http' now', previous_available first.1 (sku p) = true →
     (monitor catalog p http' now' first.1).2 = []).
Proof.
  cbn. split; [|split].
  - unfold monitor_product.
    pose proof (check_clock http (sku p) (zip_code p) now1 now2) as Hc.
    destruct (check http (sku p) (zip_code p) now1) as [c1|],
             (check http (sku p) (zip_code p) now2) as [c2|]; cbn; try done.
    unfold previous_available. rewrite lookup_insert_eq, <- Hc.
    by destruct (available c1).
  - intros current Hcur. unfold monitor_product. rewrite Hcur. cbn.
    pose proof (check_clock http (sku p) (zip_code p) now1 now2) as Hc.
    rewrite Hcur in Hc.
    destruct (check http (sku p) (zip_code p) now2) as [c2|]; [|done].
    exists c2. cbn. by rewrite lookup_insert_eq.
  - intros http' now' Hprev. unfold monitor_product at 1.
    destruct (check http' (sku p) (zip_code p) now'); [|done].
    cbn. rewrite Hprev. by rewrite andb_false_r.
Qed.


End ReconcilerFacts.



(** ** Properties of the catalog commands and the Status Store key *)

Section StoreKeyFacts.

Variable py_str : json → string.
Variable USER_ID : string.

Lemma pop_first_None (f : product → bool) (l : list product) :
  pop_first f l = None ↔ existsb f l = false.
Proof.
  induction l as [|p l IH]; cbn; [done|].
  destruct (f p); cbn; [done|].
  destruct (pop_first f l) as [[q rest]|]; [|tauto].
  split; [done|]. intros H. apply IH in H. done.
Qed.

Lemma pop_first_Some (f : product → bool) (l rest : list product) (q : product) :
  pop_first f l = Some (q, rest) →
  f q = true ∧ S (length rest) = length l ∧
  ∃ before after, l = before ++ q :: after ∧ rest = before ++ after ∧
                  existsb f before = false.
Proof.
  revert rest. induction l as [|p l IH]; intros rest; cbn; [done|].
  destruct (f p) eqn:Hp.
  - intros [= -> ->]. repeat split; [done|]. by exists [], rest.
  - destruct (pop_first f l) as [[q' rest']|]; [|done].
    intros [= -> <-]. destruct (IH _ eq_refl) as (Hq & Hlen & before & after & -> & -> & Hb).
    repeat split; [done|cbn; lia|].
    exists (p :: before), after. cbn. by rewrite Hp, Hb.
Qed.

(** C2 (amended): the Status Store is keyed by the sku alone.  An iteration
    for a product reads and writes the record of its sku only, so monitored
    entries with the same sku at different zip codes share one record and
    records of other skus stay as they were.  [remove] of a monitored pair
    drops the first catalog entry of that pair and evicts the record of the
    sku, so the next check of that sku starts from no record; records of
    other skus stay; [remove] of an unknown pair changes nothing. *)
Theorem C2_store_keyed_by_sku (st : bot_state) (p q : product) (http : http_result)
    (now : string) (s z : string) :
  let after := monitor_product py_str USER_ID (PRODUCTS_TO_MONITOR st) p http now
                 (last_stock_status st) in
  let removed := (remove_product st s z).1 in
  (∀ s', s' ≠ sku p → after.1 !! s' = last_stock_status st !! s') ∧
  (∀ current, check_product_availability py_str http (sku p) (zip_code p) now = Some current →
     sku q = sku p → after.1 !! sku q = Some current) ∧
  (existsb (same_product s z) (PRODUCTS_TO_MONITOR st) = true →
     last_stock_status removed = delete s (last_stock_status st) ∧
     last_stock_status removed !! s = None ∧
     previous_available (last_stock_status removed) s = false ∧
     (∀ s', s' ≠ s → last_stock_status removed !! s' = last_stock_status st !! s') ∧
     S (length (PRODUCTS_TO_MONITOR removed)) = length (PRODUCTS_TO_MONITOR st) ∧
     ∃ before entry after,
       PRODUCTS_TO_MONITOR st = before ++ entry :: after ∧
       existsb (same_product s z) before = false ∧
       same_product s z entry = true ∧
       PRODUCTS_TO_MONITOR removed = before ++ after) ∧
  (existsb (same_product s z) (PRODUCTS_TO_MONITOR st) = false → removed = st).
Proof.
  cbn. split; [|split; [|split]].
  - intros s' Hs'. unfold monitor_product.
    destruct (check_product_availability _ _ _ _ _); cbn; [|done].
    by rewrite lookup_insert_ne.
  - intros current Hcur ->. unfold monitor_product. rewrite Hcur. cbn.
    by rewrite lookup_insert_eq.
  - intros Hin. unfold remove_product.
    destruct (pop_first _ _) as [[removed_product rest]|] eqn:Hpop.
    + cbn. apply pop_first_Some in Hpop
        as (Hentry & Hlen & before & after & Hcat & -> & Hbefore).
      unfold previous_available. rewrite lookup_delete_eq.
      split; [done|]. split; [done|]. split; [done|]. split.
      { intros s' Hs'. by rewrite lookup_delete_ne. }
      split; [done|]. by exists before, removed_product, after.
    + apply pop_first_None in Hpop. congruence.
  - intros Hout. unfold remove_product.
    apply pop_first_None in Hout. by rewrite Hout.
Qed.

End StoreKeyFacts.

(** C2 as stated fails: with one sku monitored at two zip codes, the record
    written by the check at the first zip code is the one read for the
    second, whose restock alert is therefore never sent; and removing the
    second pair evicts the record of the first pair, which is still
    monitored. *)
Lemma C2_counterexample :
  let catalog := [Examples.abc; Examples.abc_elsewhere] in
  let in_stock := Response 200 (Some Examples.store_a_response) in
  let first := monitor_product Examples.str_scalar "42" catalog Examples.abc in_stock "t" ∅ in
  let second := monitor_product Examples.str_scalar "42" catalog Examples.abc_elsewhere
                  in_stock "t" first.1 in
  let removed := (remove_product {| PRODUCTS_TO_MONITOR := catalog;
                                    last_stock_status := first.1 |} "ABC" "10001").1 in
  length first.2 = 1%nat ∧
  previous_available first.1 (sku Examples.abc_elsewhere) = true ∧
  second.2 = [] ∧
  PRODUCTS_TO_MONITOR removed = [Examples.abc] ∧
  last_stock_status removed !! sku Examples.abc = None.
Proof.
  cbn. unfold previous_available.
  rewrite lookup_insert_eq, lookup_delete_eq. by repeat split.
Qed.

Lemma C2_store_keyed_by_sku_witness :
  existsb (same_product "ABC" "10001") [Examples.abc; Examples.abc_elsewhere] = true ∧
  last_stock_status
    (remove_product {| PRODUCTS_TO_MONITOR := [Examples.abc; Examples.abc_elsewhere];
                       last_stock_status := {[ "ABC" := Examples.store_a_record ]} |}
       "ABC" "10001").1 !! "ABC" = None.
Proof.
  split; [reflexivity|].
  apply (C2_store_keyed_by_sku Examples.str_scalar "42"
           {| PRODUCTS_TO_MONITOR := [Examples.abc; Examples.abc_elsewhere];
              last_stock_status := {[ "ABC" := Examples.store_a_record ]} |}
           Examples.abc Examples.abc TimeoutError "t" "ABC" "10001").
  reflexivity.
Defined.

(** ** Properties of the [status] command *)

Section StatusFacts.

Variable py_str : json → string.

Lemma store_empty_size (store : gmap string stock_status) :
  Nat.eqb (size store) 0 = true ↔ store = ∅.
Proof. rewrite Nat.eqb_eq. apply map_size_empty_iff. Qed.

Lemma check_status_state (st : bot_state) (priority_filter : option string) :
  (check_status py_str st priority_filter).1 = st.
Proof.
  unfold check_status.
  destruct (Nat.eqb _ _); [done|].
  destruct (invalid_filter _); [done|].
  by destruct (status_embeds _ _).
Qed.

Lemma invalid_filter_spec (priority_filter : option string) :
  invalid_filter priority_filter = true ↔
  ∃ s, priority_filter = Some s ∧ s ≠ "" ∧ py_lower s ∉ valid_priorities.
Proof.
  unfold invalid_filter, given, str_in.
  destruct priority_filter as [s|]; cbn.
  - rewrite andb_true_iff, !negb_true_iff, String.eqb_neq.
    assert (existsb (String.eqb (py_lower s)) valid_priorities = false ↔
            py_lower s ∉ valid_priorities) as ->.
    { rewrite <- not_true_iff_false, existsb_exists.
      split.
      - intros H Hin. apply H. exists (py_lower s). split.
        + by apply list_elem_of_In.
        + apply String.eqb_refl.
      - intros H (x & Hin & <-%String.eqb_eq). by apply H, list_elem_of_In. }
    split; [intros [? ?]; eauto | by intros (? & [= <-] & ? & ?)].
  - split; [done | by intros (? & ? & _)].
Qed.


(** C9 (amended): when the Status Store is not empty, a non-empty priority
    filter whose lower-case form is none of top, high, medium, low makes the
    [status] command send the validation message and nothing else; the
    command never changes the catalog or the Status Store. *)
Theorem C9_invalid_filter_is_reported (st : bot_state) (s : string) :
  last_stock_status st ≠ ∅ →
  s ≠ "" →
  py_lower s ∉ valid_priorities →
  check_status py_str st (Some s) = (st, [invalid_filter_message]) ∧
  ∀ st' priority_filter, (check_status py_str st' priority_filter).1 = st'.
Proof.
  intros Hstore Hs Hlow. split; [|apply check_status_state].
  unfold check_status.
  destruct (Nat.eqb _ _) eqn:Hsize; [by apply store_empty_size in Hsize|].
  assert (invalid_filter (Some s) = true) as ->; [|done].
  apply invalid_filter_spec. eauto.
Qed.

(** C10: with an empty Status Store the [status] command sends the
    not-checked-yet message and returns before looking at the priority
    argument, valid or not. *)
Theorem C10_empty_store_answers_first (st : bot_state) (priority_filter : option string) :
  last_stock_status st = ∅ →
  check_status py_str st priority_filter = (st, [not_checked_message]).
Proof.
  intros Hstore. unfold check_status.
  by rewrite (proj2 (store_empty_size _) Hstore).
Qed.

End StatusFacts.



(** C9 as stated fails when nothing has been checked yet: the filter
    ["urgent"] is answered with the not-checked-yet message, not with the
    validation message. *)
Lemma C9_counterexample :
  let st := {| PRODUCTS_TO_MONITOR := [Examples.abc]; last_stock_status := ∅ |} in
  invalid_filter (Some "urgent") = true ∧
  (check_status Examples.str_scalar st (Some "urgent")).2 = [not_checked_message] ∧
  not_checked_message ≠ invalid_filter_message.
Proof. by repeat split. Qed.

Lemma C9_invalid_filter_is_reported_witness :
  let st := {| PRODUCTS_TO_MONITOR := [Examples.abc];
               last_stock_status := {[ "ABC" := Examples.store_a_record ]} |} in
  last_stock_status st ≠ ∅ ∧ ("urgent" ≠ "") ∧ (py_lower "urgent" ∉ valid_priorities) ∧
  check_status Examples.str_scalar st (Some "urgent") = (st, [invalid_filter_message]).
Proof.
  cbn zeta.
  assert (({[ "ABC" := Examples.store_a_record ]} : gmap string stock_status) ≠ ∅) as Hstore.
  { apply insert_non_empty. }
  assert (py_lower "urgent" ∉ valid_priorities) as Hlow.
  { vm_compute. intros H. repeat (apply elem_of_cons in H as [H|H]; [discriminate|]).
    by apply elem_of_nil in H. }
  split; [exact Hstore|]. split; [discriminate|]. split; [exact Hlow|].
  apply (C9_invalid_filter_is_reported Examples.str_scalar
           {| PRODUCTS_TO_MONITOR := [Examples.abc];
              last_stock_status := {[ "ABC" := Examples.store_a_record ]} |} "urgent");
    [exact Hstore | discriminate | exact Hlow].
Defined.

Lemma C10_empty_store_answers_first_witness :
  let st := {| PRODUCTS_TO_MONITOR := [Examples.abc]; last_stock_status := ∅ |} in
  last_stock_status st = ∅ ∧
  check_status Examples.str_scalar st (Some "urgent") = (st, [not_checked_message]).
Proof.
  split; [reflexivity|].
  apply (C10_empty_store_answers_first Examples.str_scalar
           {| PRODUCTS_TO_MONITOR := [Examples.abc]; last_stock_status := ∅ |} (Some "urgent")).
  reflexivity.
Defined.



Lemma C1_restock_transition_law_witness :
  check_product_availability Examples.str_scalar
    (Response 200 (Some Examples.store_a_response)) "ABC" "90503" "t" =
    Some Examples.store_a_record ∧
  (monitor_product Examples.str_scalar "42" [Examples.abc] Examples.abc
     (Response 200 (Some Examples.store_a_response)) "t" ∅).2 ≠ [].
Proof.
  split; [reflexivity|].
  apply (C1_restock_transition_law Examples.str_scalar "42" [Examples.abc] Examples.abc
           (Response 200 (Some Examples.store_a_response)) "t" ∅).
  exists Examples.store_a_record.
  split; [reflexivity|]. split; [reflexivity|]. left. apply lookup_empty.
Defined.

Lemma C8_second_reconciliation_is_silent_witness :
  let first := monitor_product Examples.str_scalar "42" [Examples.abc] Examples.abc
                 (Response 200 (Some Examples.store_a_response)) "t" ∅ in
  length first.2 = 1%nat ∧
  (monitor_product Examples.str_scalar "42" [Examples.abc] Examples.abc
     (Response 200 (Some Examples.store_a_response)) "u" first.1).2 = [].
Proof.
  split; [reflexivity|].
  exact (proj1 (C8_second_reconciliation_is_silent Examples.str_scalar "42" [Examples.abc]
                  Examples.abc (Response 200 (Some Examples.store_a_response)) "t" "u" ∅)).
Defined.

(** ** Further properties of the normalizer *)

Section NormalizerMore.

Variable py_str : json → string.

Lemma checked_labels_length (names : list (json * string)) (locations : list json)
    (checked : list string) :
  checked_labels py_str names locations = Ok checked → length checked = length locations.
Proof.
  revert checked. induction locations as [|ld locations IH]; intros checked H; cbn in H;
    unfold_exc.
  - by injection H as <-.
  - destruct (checked_label py_str names ld); [|discriminate].
    destruct (checked_labels py_str names locations) as [rest|]; [|discriminate].
    injection H as <-. cbn. by rewrite (IH _ eq_refl).
Qed.

(** X1: a parsed record lists one checked label per entry of the per-item
    [locations] array, and [total_stores] is their number. *)
Theorem parsed_total_counts_locations (data : json) (sku now : string) (r : stock_status) :
  parse_stock_response py_str data sku now = Some r →
  ∃ locations checked,
    item_locations_of data = Some locations ∧
    locations_checked r = Some checked ∧
    length checked = length locations ∧
    total_stores r = Some (length locations).
Proof.
  intros H.
  apply parse_stock_response_inv in H
    as (d & items & item & il & locations & acc & names & named & checked &
        -> & Hitems & Hitem & Hil & Hiter & _ & _ & Hchecked & ->).
  exists locations, checked. cbn. rewrite Hitems, Hitem. cbn. rewrite Hil. cbn.
  rewrite Hiter. by rewrite (checked_labels_length _ _ _ Hchecked).
Qed.

Lemma set_inStoreQuantity_ok (lid q : json) (acc : list store_entry) :
  Forall quantities_ok acc → Forall quantities_ok (set_inStoreQuantity lid q acc).
Proof.
  induction 1 as [|loc acc Hloc Hacc IH]; cbn; [constructor|].
  destruct (py_eq (locationId loc) lid); constructor; try done.
  unfold quantities_ok in *. cbn. destruct (pickupQuantity loc); [done|].
  destruct Hloc as [_ Hf]. eauto.
Qed.

Lemma scan_location_ok (ld : json) (acc acc' : list store_entry) :
  Forall quantities_ok acc → scan_location ld acc = Ok acc' → Forall quantities_ok acc'.
Proof.
  intros Hacc H. unfold scan_location in H. unfold_exc.
  destruct ld as [| | | | |d|]; try discriminate. cbn in H.
  set (lid := dict_get_default "locationId" JNull d) in *.
  destruct (scan_pickup lid d acc) as [acc1|] eqn:H1; cbn in H; [|discriminate].
  assert (Forall quantities_ok acc1) as Hacc1.
  { apply scan_pickup_inv in H1 as [->|(av & _ & Hq & ->)]; [done|].
    apply Forall_app. split; [done|]. by constructor. }
  apply scan_in_store_inv in H as [->|[(ins & _ & _ & ->)|(ins & _ & _ & Hq & ->)]].
  - done.
  - by apply set_inStoreQuantity_ok.
  - apply Forall_app. split; [done|]. constructor; [|constructor].
    unfold quantities_ok. cbn. eauto.
Qed.

Lemma scan_locations_ok (locations : list json) (acc acc' : list store_entry) :
  Forall quantities_ok acc → scan_locations locations acc = Ok acc' →
  Forall quantities_ok acc'.
Proof.
  revert acc. induction locations as [|ld locations IH]; intros acc Hacc H; cbn in H;
    unfold_exc.
  - by injection H as <-.
  - destruct (scan_location ld acc) as [acc1|] eqn:H1; [|discriminate].
    eapply IH; [|exact H]. by eapply scan_location_ok.
Qed.

Lemma name_entries_ok (names : list (json * string)) (acc named : list store_entry) :
  Forall quantities_ok acc → name_entries py_str names acc = Ok named →
  Forall (λ e, is_Some (name e) ∧ quantities_ok e) named.
Proof.
  intros Hacc. revert named.
  induction Hacc as [|loc acc Hloc _ IH]; intros named H; cbn in H; unfold_exc.
  - injection H as <-. constructor.
  - unfold name_entry in H. unfold_exc.
    destruct (names_get _ _ _) as [n|]; [|discriminate].
    destruct (name_entries py_str names acc) as [rest|]; [|discriminate].
    injection H as <-. constructor; [|by apply IH].
    split; [by eexists|]. exact Hloc.
Qed.

(** X2: every store of a parsed record has a name, and its pickup quantity, when
    it has one, is positive; a store without a pickup quantity is an
    [IN_STORE] entry with an in-store quantity. *)
Theorem parsed_stores_named_and_stocked (data : json) (sku now : string) (r : stock_status) :
  parse_stock_response py_str data sku now = Some r →
  ∃ st, stores r = Some st ∧ Forall (λ e, is_Some (name e) ∧ quantities_ok e) st.
Proof.
  intros H.
  apply parse_stock_response_inv in H
    as (d & items & item & il & locations & acc & names & named & checked &
        _ & _ & _ & _ & _ & Hscan & Hnamed & _ & ->).
  exists named. split; [done|].
  eapply name_entries_ok; [|exact Hnamed].
  eapply scan_locations_ok; [|exact Hscan]. constructor.
Qed.

Lemma scan_locations_not_object (locations : list json) (acc : list store_entry) :
  existsb (λ ld, negb (is_object ld)) locations = true →
  ∃ e, scan_locations locations acc = Raise e.
Proof.
  revert acc. induction locations as [|ld locations IH]; intros acc; cbn; [done|].
  unfold_exc. intros H.
  destruct (scan_location ld acc) as [acc1|e] eqn:H1; [|by eexists].
  apply IH. destruct ld; cbn in *; try discriminate. exact H.
Qed.

(** X3: one entry of the per-item [locations] array that is not an object makes
    the normalizer give up on the whole response. *)
Theorem malformed_location_entry_discards_response (d item : list (string * json))
    (more locations : list json) (sku now : string) :
  dict_get "items" d = Some (JArr (JObj item :: more)) →
  dict_get "locations" item = Some (JArr locations) →
  existsb (λ ld, negb (is_object ld)) locations = true →
  parse_stock_response py_str (JObj d) sku now = None.
Proof.
  intros Hitems Hlocs Hbad. unfold parse_stock_response, parse_body.
  rewrite Hitems. cbn. unfold parse_item. cbn. rewrite Hlocs. cbn.
  destruct (scan_locations_not_object locations [] Hbad) as [e ->]. reflexivity.
Qed.

(** X4: a first item that is an object without a [locations] key gives no
    record, whatever else the response holds. *)
Theorem item_without_locations_gives_None (d item : list (string * json))
    (more : list json) (sku now : string) :
  dict_get "items" d = Some (JArr (JObj item :: more)) →
  dict_get "locations" item = None →
  parse_stock_response py_str (JObj d) sku now = None.
Proof.
  intros Hitems Hlocs. unfold parse_stock_response, parse_body.
  rewrite Hitems. cbn. unfold parse_item. cbn. rewrite Hlocs. reflexivity.
Qed.

Lemma name_entries_no_names (acc named : list store_entry) :
  name_entries py_str [] acc = Ok named →
  Forall (λ e, name e = Some (location_label py_str (locationId e))) named.
Proof.
  revert named. induction acc as [|loc acc IH]; intros named H; cbn in H; unfold_exc.
  - injection H as <-. constructor.
  - unfold name_entry, names_get in H. unfold_exc.
    destruct (hashable (locationId loc)); [|discriminate]. cbn in H.
    destruct (name_entries py_str [] acc) as [rest|]; [|discriminate].
    injection H as <-. constructor; [done | by apply IH].
Qed.

(** X5: without a top-level [locations] array every store of the record is named
    ["Location <id>"]. *)
Theorem names_fall_back_to_location_id (d : list (string * json)) (sku now : string)
    (r : stock_status) :
  dict_get "locations" d = None →
  parse_stock_response py_str (JObj d) sku now = Some r →
  ∃ st, stores r = Some st ∧
        Forall (λ e, name e = Some ("Location " +:+ py_str (locationId e))) st.
Proof.
  intros Hno H. unfold parse_stock_response, parse_body in H.
  destruct (dict_get "items" d) as [items|]; [|discriminate].
  unfold_exc.
  destruct (py_len items) as [n|]; [|discriminate].
  destruct (0 <? n)%nat; [|discriminate].
  unfold parse_item in H. unfold_exc. rewrite Hno in H.
  destruct (py_getitem0 items) as [item|]; [|discriminate].
  destruct (py_in "locations" item) as [[]|]; cbn in H; try discriminate.
  destruct (py_getitem "locations" item) as [il|]; [|discriminate].
  destruct (py_len il); [|discriminate].
  destruct (py_iter il) as [locations|]; [|discriminate].
  destruct (scan_locations locations []) as [acc|]; [|discriminate].
  destruct (name_entries py_str [] acc) as [named|] eqn:Hnamed; [|discriminate].
  destruct (checked_labels py_str [] locations); [|discriminate].
  injection H as <-. exists named. split; [done|].
  exact (name_entries_no_names acc named Hnamed).
Qed.

(** X6: the time of the parse shows in [last_checked] and nowhere else. *)
Theorem parse_depends_on_clock_only_in_last_checked (data : json) (sku now now' : string) :
  parse_stock_response py_str data sku now' =
  with_clock now' <$> parse_stock_response py_str data sku now.
Proof.
  unfold parse_stock_response, parse_body.
  destruct data as [| | | | |d|]; try reflexivity.
  destruct (dict_get "items" d) as [items|]; [|reflexivity].
  unfold_exc.
  destruct (py_len items) as [n|]; [|reflexivity].
  destruct (0 <? n)%nat; [|reflexivity].
  unfold parse_item. unfold_exc.
  destruct (py_getitem0 items) as [item|]; [|reflexivity].
  destruct (py_in "locations" item) as [[]|]; cbn; try reflexivity.
  destruct (py_getitem "locations" item) as [il|]; [|reflexivity].
  destruct (py_len il); [|reflexivity].
  destruct (py_iter il) as [locations|]; [|reflexivity].
  destruct (scan_locations locations []) as [acc|]; [|reflexivity].
  destruct (match dict_get "locations" d with Some _ => _ | None => _ end)
    as [names|]; [|reflexivity].
  destruct (name_entries py_str names acc); [|reflexivity].
  destruct (checked_labels py_str names locations); reflexivity.
Qed.

(** X7: only a 200 response whose body the normalizer accepts yields a record
    that says available. *)
Theorem available_needs_parsed_200 (http : http_result) (s z now : string) (r : stock_status) :
  check_product_availability py_str http s z now = Some r →
  available r = true →
  ∃ data, http = Response 200 (Some data) ∧
          parse_stock_response py_str data s now = Some r ∧
          ∃ st, stores r = Some st ∧ st ≠ [].
Proof.
  intros H Hav. destruct http as [status body| |]; cbn in H; try discriminate.
  destruct (status =? 200)%Z eqn:E200.
  - apply Z.eqb_eq in E200 as ->.
    destruct body as [data|]; [|discriminate].
    exists data. split; [done|]. split; [done|].
    apply parse_stock_response_inv in H
      as (d & items & item & il & locations & acc & names & named & checked &
          _ & _ & _ & _ & _ & _ & _ & _ & ->).
    exists named. split; [done|]. cbn in Hav. by destruct named.
  - destruct (status =? 404)%Z; [|discriminate].
    injection H as <-. discriminate.
Qed.

(** X30: every record of the normalizer has [available] equal to
    [len(stores) > 0] and at most two stores per location checked; when no
    location id is NaN it has at most one store per location checked, that
    is [total_stores >= len(stores)]. *)
Theorem record_invariants_when_no_id_is_nan (data : json) (sku now : string)
    (r : stock_status) :
  parse_stock_response py_str data sku now = Some r →
  ∃ (st : list store_entry) (total : nat) (locations : list json),
    stores r = Some st ∧ total_stores r = Some total ∧
    item_locations_of data = Some locations ∧
    available r = bool_decide (0 < length st) ∧
    length st ≤ 2 * total ∧
    (Forall (λ ld, is_nan (location_id_of ld) = false) locations → length st ≤ total).
Proof.
  intros H.
  apply parse_stock_response_inv in H
    as (d & items & item & il & locations & acc & names & named & checked &
        -> & Hitems & Hitem & Hil & Hiter & Hscan & Hnamed & Hchecked & ->).
  exists named, (length locations), locations. cbn.
  rewrite Hitems, Hitem. cbn. rewrite Hil. cbn. rewrite Hiter.
  split; [done|]. split; [done|]. split; [done|]. split; [by destruct named|].
  split.
  - apply scan_locations_length in Hscan.
    apply name_entries_inv in Hnamed as (E & _).
    apply (f_equal length) in E. rewrite !length_map in E. cbn in Hscan. lia.
  - intros Hnan.
    pose proof (parsed_stores_sublist _ _ _ _ _ _ Hnan Hscan Hnamed Hchecked) as Hsub.
    apply sublist_length in Hsub. by rewrite !length_map in Hsub.
Qed.

End NormalizerMore.

(** ** Properties of a whole monitoring cycle *)

Section CycleFacts.

Variable py_str : json → string.
Variable USER_ID : string.

Local Abbreviation check := (check_product_availability py_str).
Local Abbreviation loop := (monitor_loop py_str USER_ID).
Local Abbreviation cycle := (monitor_restocks py_str USER_ID).

Lemma monitor_product_other (catalog : list product) (p : product) (http : http_result)
    (now : string) (store : gmap string stock_status) (s : string) :
  s ≠ sku p →
  (monitor_product py_str USER_ID catalog p http now store).1 !! s = store !! s.
Proof.
  intros Hs. unfold monitor_product.
  destruct (check http (sku p) (zip_code p) now); cbn; [|done].
  by rewrite lookup_insert_ne.
Qed.

Lemma monitor_product_keeps (catalog : list product) (p : product) (http : http_result)
    (now : string) (store : gmap string stock_status) (s : string) :
  is_Some (store !! s) →
  is_Some ((monitor_product py_str USER_ID catalog p http now store).1 !! s).
Proof.
  intros Hs. unfold monitor_product.
  destruct (check http (sku p) (zip_code p) now); cbn; [|done].
  destruct (decide (sku p = s)) as [->|Hne].
  - rewrite lookup_insert_eq. by eexists.
  - by rewrite lookup_insert_ne.
Qed.

Lemma loop_other (catalog : list product) (net : nat → http_result) (clock : nat → string)
    (todo : list product) (i : nat) (store : gmap string stock_status) (s : string) :
  s ∉ map sku todo →
  (loop catalog net clock i todo store).1 !! s = store !! s.
Proof.
  revert i store. induction todo as [|p todo IH]; intros i store Hs; cbn; [done|].
  apply not_elem_of_cons in Hs as [Hp Hs].
  rewrite IH by done. by apply monitor_product_other.
Qed.

Lemma loop_keeps (catalog : list product) (net : nat → http_result) (clock : nat → string)
    (todo : list product) (i : nat) (store : gmap string stock_status) (s : string) :
  is_Some (store !! s) →
  is_Some ((loop catalog net clock i todo store).1 !! s).
Proof.
  revert i store. induction todo as [|p todo IH]; intros i store Hs; cbn; [done|].
  by apply IH, monitor_product_keeps.
Qed.

Lemma loop_sent (catalog : list product) (net : nat → http_result) (clock : nat → string)
    (todo : list product) (i : nat) (store : gmap string stock_status) :
  length (loop catalog net clock i todo store).2 ≤ length todo ∧
  Forall (λ m, content m = Some ("<@" +:+ USER_ID +:+ ">") ∧ is_Some (msg_embed m))
         (loop catalog net clock i todo store).2.
Proof.
  revert i store. induction todo as [|p todo IH]; intros i store; cbn; [by split|].
  destruct (IH (S i) (monitor_product py_str USER_ID catalog p (net i) (clock i) store).1)
    as [Hlen Hall].
  rewrite length_app, Forall_app.
  unfold monitor_product at 1 3.
  destruct (check (net i) (sku p) (zip_code p) (clock i)) as [c|]; cbn.
  - destruct (available c && negb (previous_available store (sku p))); cbn.
    + split; [lia|]. split; [|done]. constructor; [|constructor].
      split; [done | by eexists].
    + split; [lia|]. by split.
  - split; [lia|]. by split.
Qed.

Lemma loop_all_fail (catalog : list product) (net : nat → http_result) (clock : nat → string)
    (todo : list product) (i : nat) (store : gmap string stock_status) :
  (∀ j, j < length todo → fetch_failure (net (i + j)) = true) →
  loop catalog net clock i todo store = (store, []).
Proof.
  revert i. induction todo as [|p todo IH]; intros i Hfail; cbn; [done|].
  assert (monitor_product py_str USER_ID catalog p (net i) (clock i) store = (store, [])) as ->.
  { unfold monitor_product. rewrite fetch_failure_None; [done|].
    rewrite <- (Nat.add_0_r i). apply Hfail. cbn. lia. }
  cbn. rewrite IH; [done|].
  intros j Hj. replace (S i + j) with (i + S j) by lia. apply Hfail. cbn. lia.
Qed.

Lemma loop_records (catalog : list product) (net : nat → http_result) (clock : nat → string)
    (todo : list product) (i j : nat) (store : gmap string stock_status)
    (p : product) (c : stock_status) :
  NoDup (map sku todo) →
  todo !! j = Some p →
  check (net (i + j)) (sku p) (zip_code p) (clock (i + j)) = Some c →
  (loop catalog net clock i todo store).1 !! sku p = Some c.
Proof.
  revert i j store. induction todo as [|q todo IH]; intros i j store Hnd Hj Hc; [done|].
  cbn in Hnd. apply NoDup_cons in Hnd as [Hq Hnd]. cbn.
  destruct j as [|j]; cbn in Hj.
  - injection Hj as ->. rewrite Nat.add_0_r in Hc.
    rewrite loop_other by done.
    unfold monitor_product. rewrite Hc. cbn. by rewrite lookup_insert_eq.
  - apply (IH (S i) j); [done..|].
    by replace (S i + j) with (i + S j) by lia.
Qed.

Lemma loop_silent (catalog : list product) (net : nat → http_result) (clock : nat → string)
    (todo : list product) (i : nat) (store : gmap string stock_status) :
  NoDup (map sku todo) →
  (∀ j p c, todo !! j = Some p →
            check (net (i + j)) (sku p) (zip_code p) (clock (i + j)) = Some c →
            available c = true → previous_available store (sku p) = true) →
  (loop catalog net clock i todo store).2 = [].
Proof.
  revert i store. induction todo as [|q todo IH]; intros i store Hnd Hprev; [done|].
  cbn in Hnd. apply NoDup_cons in Hnd as [Hq Hnd]. cbn.
  assert ((monitor_product py_str USER_ID catalog q (net i) (clock i) store).2 = []) as ->.
  { unfold monitor_product.
    destruct (check (net i) (sku q) (zip_code q) (clock i)) as [c|] eqn:Hc; [|done].
    cbn. destruct (available c) eqn:Hav; [|done].
    rewrite (Hprev 0 q c); [done..| |done]. by rewrite Nat.add_0_r. }
  cbn. apply IH; [done|].
  intros j p c Hj Hc Hav.
  assert (sku p ≠ sku q) as Hne.
  { intros E. apply Hq. rewrite <- E. apply list_elem_of_fmap. exists p. split; [done|].
    by eapply list_elem_of_lookup_2. }
  unfold previous_available. rewrite monitor_product_other by done.
  apply (Hprev (S j) p c); [done| |done].
  by replace (i + S j) with (S i + j) by lia.
Qed.

(** X8: a cycle leaves the catalog as it is, leaves the record of every sku that
    is not in the catalog as it is, and never removes a record. *)
Theorem cycle_touches_only_catalog_skus (channel : bool) (net : nat → http_result)
    (clock : nat → string) (st : bot_state) :
  let after := (cycle channel net clock st).1 in
  PRODUCTS_TO_MONITOR after = PRODUCTS_TO_MONITOR st ∧
  (∀ s, s ∉ map sku (PRODUCTS_TO_MONITOR st) →
        last_stock_status after !! s = last_stock_status st !! s) ∧
  (∀ s, is_Some (last_stock_status st !! s) → is_Some (last_stock_status after !! s)).
Proof.
  cbn. unfold monitor_restocks. destruct channel; cbn; [|done].
  split; [done|]. split.
  - intros s Hs. by apply loop_other.
  - intros s Hs. by apply loop_keeps.
Qed.

(** X9: a cycle sends at most one message per catalog entry, and each one
    mentions the operator and carries an embed; when the channel is not found
    the cycle sends nothing and changes nothing. *)
Theorem cycle_sends_at_most_one_alert_per_entry (channel : bool) (net : nat → http_result)
    (clock : nat → string) (st : bot_state) :
  let sent := (cycle channel net clock st).2 in
  length sent ≤ length (PRODUCTS_TO_MONITOR st) ∧
  Forall (λ m, content m = Some ("<@" +:+ USER_ID +:+ ">") ∧ is_Some (msg_embed m)) sent ∧
  (channel = false → cycle channel net clock st = (st, [])).
Proof.
  cbn. unfold monitor_restocks. destruct channel; cbn.
  - split; [apply loop_sent|]. split; [apply loop_sent | done].
  - split; [lia|]. split; [constructor | done].
Qed.

(** X10: when every request of a cycle times out, raises or returns a status
    other than 200 and 404, the cycle still goes through the whole catalog
    and ends with the state it started from and nothing sent. *)
Theorem cycle_of_failures_changes_nothing (net : nat → http_result)
    (clock : nat → string) (st : bot_state) :
  (∀ i, i < length (PRODUCTS_TO_MONITOR st) → fetch_failure (net i) = true) →
  cycle true net clock st = (st, []).
Proof.
  intros Hfail. unfold monitor_restocks.
  rewrite loop_all_fail by done. by destruct st.
Qed.

(** X11: when no sku occurs twice in the catalog, a cycle leaves in the store the
    record of every catalog entry whose check gave one. *)
Theorem cycle_stores_each_record (net : nat → http_result) (clock : nat → string)
    (st : bot_state) (i : nat) (p : product) (c : stock_status) :
  NoDup (map sku (PRODUCTS_TO_MONITOR st)) →
  PRODUCTS_TO_MONITOR st !! i = Some p →
  check (net i) (sku p) (zip_code p) (clock i) = Some c →
  last_stock_status (cycle true net clock st).1 !! sku p = Some c.
Proof.
  intros Hnd Hi Hc. unfold monitor_restocks. cbn.
  by apply (loop_records _ _ _ _ 0 i).
Qed.

(** X12: when no sku occurs twice in the catalog, a cycle that gets the same
    answers as the cycle before it sends nothing. *)
Theorem repeated_cycle_is_silent (net : nat → http_result) (clock clock' : nat → string)
    (st : bot_state) :
  NoDup (map sku (PRODUCTS_TO_MONITOR st)) →
  (cycle true net clock' (cycle true net clock st).1).2 = [].
Proof.
  intros Hnd. unfold monitor_restocks. cbn.
  apply loop_silent; [done|].
  intros j p c' Hj Hc' Hav. cbn in Hc'.
  pose proof (check_clock py_str (net j) (sku p) (zip_code p) (clock j) (clock' j)) as Hcc.
  rewrite Hc' in Hcc.
  destruct (check (net j) (sku p) (zip_code p) (clock j)) as [c|] eqn:Hc; [|done].
  unfold previous_available.
  rewrite (loop_records _ _ _ _ 0 j _ p c); [congruence|done..].
Qed.

End CycleFacts.

(** ** Properties of the restock alert *)

Section AlertFacts.

Variable py_str : json → string.
Variable USER_ID : string.

Lemma available_record_has_stores (http : http_result) (s z now : string) (r : stock_status) :
  check_product_availability py_str http s z now = Some r →
  available r = true →
  ∃ store more, stores r = Some (store :: more).
Proof.
  intros H Hav. destruct http as [status body| |]; cbn in H; try discriminate.
  destruct (status =? 200)%Z.
  - destruct body as [data|]; [|discriminate].
    apply parse_stock_response_inv in H
      as (d & items & item & il & locations & acc & names & named & checked &
          _ & _ & _ & _ & _ & _ & _ & _ & ->).
    cbn in Hav. destruct named as [|store more]; [done|]. by exists store, more.
  - destruct (status =? 404)%Z; [|discriminate].
    injection H as <-. discriminate.
Qed.

Lemma store_lines_length (limit : nat) (stores : list store_entry) :
  length (store_lines py_str limit stores) =
  (length stores `min` limit + if (limit <? length stores)%nat then 1 else 0)%nat.
Proof.
  unfold store_lines. rewrite length_app, length_map, length_take.
  destruct (limit <? length stores)%nat eqn:E; cbn; lia.
Qed.

(** X13: every message an iteration sends is the restock embed with the same
    eight fields, in the same order; it shows the number of stores of the
    record just stored, and its store list is the line of each of the first
    ten stores followed, beyond ten, by one line counting the others. *)
Theorem alert_has_eight_fields (catalog : list product) (p : product) (http : http_result)
    (now : string) (store : gmap string stock_status) (m : message) :
  m ∈ (monitor_product py_str USER_ID catalog p http now store).2 →
  ∃ e st,
    msg_embed m = Some e ∧
    (monitor_product py_str USER_ID catalog p http now store).1 !! sku p
      = Some st ∧
    map field_name (fields e) =
      ["SKU"; "Zip Code"; "Priority"; "Category"; "Set"; "Stores with Stock";
       "Available Locations"; "Link"] ∧
    fields e !! 5%nat =
      Some {| field_name := "Stores with Stock";
              field_value := str_nat py_str (length (get_or [] (stores st))) +:+ " stores";
              inline := true |} ∧
    fields e !! 6%nat =
      Some {| field_name := "Available Locations";
              field_value :=
                py_join newline
                  (map (store_line py_str) (take 10 (get_or [] (stores st))) ++
                   if (10 <? length (get_or [] (stores st)))%nat
                   then ["• ... and " +:+
                         str_nat py_str (length (get_or [] (stores st)) - 10) +:+
                         " more stores"]
                   else []);
              inline := false |}.
Proof.
  unfold monitor_product.
  destruct (check_product_availability py_str http (sku p) (zip_code p) now)
    as [c|] eqn:Hc; cbn; [|by intros ?%elem_of_nil].
  destruct (available c) eqn:Hav; cbn; [|by intros ?%elem_of_nil].
  destruct (previous_available store (sku p)); cbn; [by intros ?%elem_of_nil|].
  intros ->%list_elem_of_singleton.
  destruct (available_record_has_stores _ _ _ _ _ Hc Hav) as (s0 & more & Hst).
  eexists _, c. split; [reflexivity|]. rewrite lookup_insert_eq. split; [done|].
  cbn -[store_lines py_join]. rewrite Hst. cbn -[store_lines py_join length take].
  split; [done|]. split; reflexivity.
Qed.

Lemma catalog_field_own (catalog : list product) (p : product)
    (key : product → option string) (dflt : string) :
  NoDup (map sku catalog) → p ∈ catalog →
  catalog_field catalog (sku p) key dflt = get_or dflt (key p).
Proof.
  unfold catalog_field. induction catalog as [|q catalog IH]; cbn.
  - by intros _ ?%elem_of_nil.
  - intros [Hq Hnd]%NoDup_cons [->|Hin]%elem_of_cons.
    + by rewrite String.eqb_refl.
    + destruct (String.eqb_spec (sku q) (sku p)) as [E|_]; [|by apply IH].
      exfalso. apply Hq. rewrite E. apply list_elem_of_fmap. by exists p.
Qed.

(** X14: when no sku occurs twice in the catalog, the alert of a monitored product
    shows that product's own priority, upper-cased ([MEDIUM] when it has
    none), its category and its set. *)
Theorem alert_shows_own_priority (catalog : list product) (p : product) (c : stock_status) :
  NoDup (map sku catalog) → p ∈ catalog →
  ∃ e, msg_embed (restock_alert py_str USER_ID catalog p c) = Some e ∧
       title e = (alert_theme (get_or "medium" (priority p))).1 ∧
       color e = (alert_theme (get_or "medium" (priority p))).2 ∧
       fields e !! 2%nat =
         Some {| field_name := "Priority";
                 field_value := py_upper (get_or "medium" (priority p)); inline := true |} ∧
       fields e !! 3%nat =
         Some {| field_name := "Category";
                 field_value := get_or "Unknown" (category p); inline := true |} ∧
       fields e !! 4%nat =
         Some {| field_name := "Set";
                 field_value := get_or "Unknown" (set_name p); inline := true |}.
Proof.
  intros Hnd Hin. unfold restock_alert. cbn.
  rewrite !catalog_field_own by done.
  eexists. split; [reflexivity|]. by cbn.
Qed.

(** X15: the quantity 9999 is shown as [3+]: for a pickup quantity, for an
    in-store quantity, and once only when both are 9999. *)
Theorem sentinel_9999_is_shown_as_3_plus (id fulfillment : json) (n : string) :
  store_line py_str {| locationId := id; pickupQuantity := Some (JInt 9999);
                       inStoreQuantity := None; fulfillmentType := fulfillment;
                       name := Some n |} = "• " +:+ n +:+ " (3+)" ∧
  store_line py_str {| locationId := id; pickupQuantity := None;
                       inStoreQuantity := Some (JInt 9999); fulfillmentType := fulfillment;
                       name := Some n |} = "• " +:+ n +:+ " (3+ in-store)" ∧
  store_line py_str {| locationId := id; pickupQuantity := Some (JInt 9999);
                       inStoreQuantity := Some (JInt 9999); fulfillmentType := fulfillment;
                       name := Some n |} = "• " +:+ n +:+ " (3+)".
Proof. by repeat split. Qed.

(** X16: one sku monitored at two zip codes, in stock at the first and out of
    stock at the second: whatever the store held before, every cycle from the
    second on sends the alert of the first entry again. *)
Theorem shared_sku_alerts_every_cycle (p q : product) (net : nat → http_result)
    (clock clock' : nat → string) (store : gmap string stock_status)
    (c' d d' : stock_status) :
  sku q = sku p →
  check_product_availability py_str (net 1%nat) (sku q) (zip_code q) (clock 1%nat) = Some d →
  check_product_availability py_str (net 0%nat) (sku p) (zip_code p) (clock' 0%nat) = Some c' →
  check_product_availability py_str (net 1%nat) (sku q) (zip_code q) (clock' 1%nat) = Some d' →
  available c' = true → available d = false →
  let st := {| PRODUCTS_TO_MONITOR := [p; q]; last_stock_status := store |} in
  (monitor_restocks py_str USER_ID true net clock'
     (monitor_restocks py_str USER_ID true net clock st).1).2 =
  [restock_alert py_str USER_ID [p; q] p c'].
Proof.
  intros Hsku Hd Hc' Hd' Hav Hun. cbn.
  unfold monitor_product.
  destruct (check_product_availability py_str (net 0%nat) (sku p) (zip_code p) (clock 0%nat));
    cbn; rewrite Hd; cbn; rewrite Hc'; cbn; rewrite Hd'; cbn; unfold previous_available;
    rewrite Hsku, !lookup_insert_eq, Hav, Hun; cbn; by rewrite andb_false_r.
Qed.

End AlertFacts.

(** ** Properties of [add] and [remove] *)

Section CatalogFacts.

Lemma same_product_pair (s z : string) (p : product) :
  same_product s z p = true ↔ pair_of p = (s, z).
Proof.
  unfold same_product, pair_of. rewrite andb_true_iff, !String.eqb_eq.
  split; [by intros [-> ->] | by intros [= -> ->]].
Qed.

Lemma monitored_pair (s z : string) (catalog : list product) :
  existsb (same_product s z) catalog = true ↔ (s, z) ∈ map pair_of catalog.
Proof.
  rewrite existsb_exists, list_elem_of_fmap. split.
  - intros (p & Hin & Hp). exists p. split.
    + symmetry. by apply same_product_pair.
    + by apply list_elem_of_In.
  - intros (p & Hp & Hin). exists p. split.
    + by apply list_elem_of_In.
    + by apply same_product_pair.
Qed.

Lemma pop_first_last (f : product → bool) (l : list product) (x : product) :
  existsb f l = false → f x = true → pop_first f (l ++ [x]) = Some (x, l).
Proof.
  intros Hl Hx. induction l as [|p l IH]; cbn in *.
  - by rewrite Hx.
  - apply orb_false_iff in Hl as [-> Hl]. by rewrite IH.
Qed.

(** X17: [add] never touches the Status Store, keeps every catalog entry in
    place, and leaves the pair monitored; a pair already monitored leaves the
    catalog as it is, a new one is appended as the last entry, without
    priority, category or set. *)
Theorem add_appends_or_keeps (st : bot_state) (s z : string) (name : option string) :
  let after := (add_product st s z name).1 in
  last_stock_status after = last_stock_status st ∧
  existsb (same_product s z) (PRODUCTS_TO_MONITOR after) = true ∧
  (existsb (same_product s z) (PRODUCTS_TO_MONITOR st) = true → after = st) ∧
  (existsb (same_product s z) (PRODUCTS_TO_MONITOR st) = false →
   PRODUCTS_TO_MONITOR after =
   PRODUCTS_TO_MONITOR st ++
   [ {| sku := s; zip_code := z; product_name := Some (name_or name s);
        priority := None; category := None; set_name := None |} ]).
Proof.
  cbn. unfold add_product.
  destruct (existsb (same_product s z) (PRODUCTS_TO_MONITOR st)) eqn:E; cbn.
  - by rewrite E.
  - repeat split; try done.
    rewrite existsb_app. cbn. unfold same_product at 2. cbn.
    by rewrite !String.eqb_refl, orb_true_r.
Qed.

(** X18: [add] keeps the pairs (sku, zip code) of the catalog distinct. *)
Theorem add_keeps_pairs_distinct (st : bot_state) (s z : string) (name : option string) :
  NoDup (map pair_of (PRODUCTS_TO_MONITOR st)) →
  NoDup (map pair_of (PRODUCTS_TO_MONITOR (add_product st s z name).1)).
Proof.
  intros Hnd. unfold add_product.
  destruct (existsb (same_product s z) (PRODUCTS_TO_MONITOR st)) eqn:E; cbn; [done|].
  rewrite map_app. cbn. apply NoDup_app. split; [done|]. split.
  - intros pr Hin ->%list_elem_of_singleton.
    unfold pair_of at 1 in Hin. cbn in Hin.
    apply (monitored_pair s z) in Hin. congruence.
  - apply NoDup_singleton.
Qed.

(** X19: [add] of a pair that is not monitored followed by [remove] of the same
    pair gives back the catalog, and leaves the Status Store without a record
    for the sku. *)
Theorem add_then_remove_restores_catalog (st : bot_state) (s z : string)
    (name : option string) :
  existsb (same_product s z) (PRODUCTS_TO_MONITOR st) = false →
  remove_product (add_product st s z name).1 s z =
  ({| PRODUCTS_TO_MONITOR := PRODUCTS_TO_MONITOR st;
      last_stock_status := delete s (last_stock_status st) |},
   [text ("Removed " +:+ name_or name s +:+ " from monitoring list.")]).
Proof.
  intros E. unfold add_product. rewrite E. unfold remove_product. cbn.
  rewrite pop_first_last; [done|done|].
  unfold same_product. cbn. by rewrite !String.eqb_refl.
Qed.

(** X20: when the pairs of the catalog are distinct, [remove] of a monitored pair
    leaves it unmonitored, keeps the pairs distinct, and keeps every other
    entry, in the same order. *)
Theorem remove_unmonitors_pair (st : bot_state) (s z : string) :
  NoDup (map pair_of (PRODUCTS_TO_MONITOR st)) →
  existsb (same_product s z) (PRODUCTS_TO_MONITOR st) = true →
  let after := (remove_product st s z).1 in
  existsb (same_product s z) (PRODUCTS_TO_MONITOR after) = false ∧
  NoDup (map pair_of (PRODUCTS_TO_MONITOR after)) ∧
  PRODUCTS_TO_MONITOR after =
    List.filter (λ p, negb (same_product s z p)) (PRODUCTS_TO_MONITOR st).
Proof.
  intros Hnd Hin. cbn. unfold remove_product.
  destruct (pop_first _ _) as [[removed rest]|] eqn:Hpop.
  - cbn. apply pop_first_Some in Hpop
      as (Hrm & _ & before & after & Hcat & -> & Hbefore).
    rewrite Hcat in Hnd. rewrite map_app in Hnd. cbn in Hnd.
    apply NoDup_app in Hnd as (Hnb & Hdisj & [Hna Hnda]%NoDup_cons).
    apply same_product_pair in Hrm.
    assert (existsb (same_product s z) after = false) as Hafter.
    { apply not_true_iff_false. intros H%monitored_pair. by rewrite Hrm in Hna. }
    assert (∀ l, existsb (same_product s z) l = false →
                 List.filter (λ p, negb (same_product s z p)) l = l) as Hfilter.
    { induction l as [|p l IH]; cbn; [done|].
      intros [-> Hl]%orb_false_iff. cbn. by rewrite IH. }
    split; [by rewrite existsb_app, Hbefore, Hafter|]. split.
    + rewrite map_app. apply NoDup_app. split; [done|]. split; [|done].
      intros pr Hpr Hpr'. apply (Hdisj pr Hpr). by right.
    + rewrite Hcat, List.filter_app. cbn.
      assert (same_product s z removed = true) as -> by by apply same_product_pair.
      cbn. by rewrite !Hfilter.
  - apply pop_first_None in Hpop. congruence.
Qed.

End CatalogFacts.

(** ** Further properties of the [status] command *)

Section StatusMore.

Variable py_str : json → string.

Lemma create_status_embed_fields (products : list product_info) (title : string) (color : Z)
    (e : embed) :
  create_status_embed py_str products title color = Some e →
  1 ≤ length (fields e) ≤ 11.
Proof.
  unfold create_status_embed. destruct products as [|i l]; [done|].
  intros [= <-]. cbn [fields length]. rewrite length_app, length_map, length_take.
  destruct (10 <? S (length l))%nat; cbn [length]; lia.
Qed.

Lemma status_embeds_bounds (l : list product_info) :
  length (status_embeds py_str l) ≤ 2 ∧
  Forall (λ e, 1 ≤ length (fields e) ≤ 11) (status_embeds py_str l).
Proof.
  assert (∀ o : option embed,
            (∀ e, o = Some e → 1 ≤ length (fields e) ≤ 11) →
            length (option_list o) ≤ 1 ∧
            Forall (λ e, 1 ≤ length (fields e) ≤ 11) (option_list o)) as Hopt.
  { intros [e|] H; cbn; (split; [lia|]); [|constructor].
    constructor; [by apply H | constructor]. }
  unfold status_embeds. rewrite length_app, Forall_app.
  destruct (Hopt _ (create_status_embed_fields (available_products l)
                      ("✅ Available Products (" +:+
                       str_nat py_str (length (available_products l)) +:+ ")") 0x00ff00%Z))
    as [L1 F1].
  destruct (Hopt _ (create_status_embed_fields (unavailable_products l)
                      ("❌ Out of Stock Products (" +:+
                       str_nat py_str (length (unavailable_products l)) +:+ ")") 0xff0000%Z))
    as [L2 F2].
  split; [lia | done].
Qed.

(** X21: the [status] command always answers, with one or two messages; a message
    is either a text or an embed of one to eleven fields. *)
Theorem status_sends_one_or_two_messages (st : bot_state) (priority_filter : option string) :
  let sent := (check_status py_str st priority_filter).2 in
  1 ≤ length sent ≤ 2 ∧
  Forall (λ m, match msg_embed m with
               | Some e => 1 ≤ length (fields e) ≤ 11
               | None => is_Some (content m)
               end) sent.
Proof.
  cbn. unfold check_status.
  destruct (Nat.eqb _ _);
    [cbn; split; [lia|]; constructor; [by eexists | constructor]|].
  destruct (invalid_filter _);
    [cbn; split; [lia|]; constructor; [by eexists | constructor]|].
  destruct (status_embeds_bounds
              (listed_products (last_stock_status st) priority_filter (PRODUCTS_TO_MONITOR st)))
    as [Hlen Hall].
  destruct (status_embeds py_str _) as [|e embeds]; cbn.
  - split; [lia|]. constructor; [|constructor].
    destruct (given priority_filter); by eexists.
  - cbn in Hlen. rewrite length_map. split; [lia|].
    apply Forall_cons in Hall as [He Hall]. constructor; [done|].
    apply Forall_fmap. by eapply Forall_impl.
Qed.

Lemma partitions_length (l : list product_info) :
  length (available_products l) + length (unavailable_products l) = length l.
Proof.
  unfold available_products, unavailable_products.
  induction l as [|i l IH]; cbn; [done|].
  destruct (status_available (info_status i)); cbn; lia.
Qed.

Lemma listed_products_all (store : gmap string stock_status) (priority_filter : option string)
    (catalog : list product) :
  given priority_filter = false →
  map info_sku (listed_products store priority_filter catalog) = map sku catalog.
Proof.
  intros Hg. induction catalog as [|p catalog IH]; cbn; [done|].
  rewrite Hg. cbn. by rewrite IH.
Qed.

(** X22: without a priority filter the [status] command lists every catalog entry,
    in catalog order, once, in one of the two partitions; an entry is in the
    available partition exactly when the store's record of its sku says
    available. *)
Theorem status_partitions_the_catalog (st : bot_state) (priority_filter : option string) :
  given priority_filter = false →
  let listing := listed_products (last_stock_status st) priority_filter
                   (PRODUCTS_TO_MONITOR st) in
  map info_sku listing = map sku (PRODUCTS_TO_MONITOR st) ∧
  length (available_products listing) + length (unavailable_products listing) =
    length (PRODUCTS_TO_MONITOR st) ∧
  Forall (λ i, previous_available (last_stock_status st) (info_sku i) = true)
         (available_products listing) ∧
  Forall (λ i, previous_available (last_stock_status st) (info_sku i) = false)
         (unavailable_products listing).
Proof.
  intros Hg listing.
  assert (Forall (λ i, info_status i = last_stock_status st !! info_sku i) listing) as Hst.
  { unfold listing. induction (PRODUCTS_TO_MONITOR st) as [|p l IH]; cbn; [constructor|].
    rewrite Hg. cbn. by constructor. }
  split; [by apply listed_products_all|]. split.
  - rewrite partitions_length. unfold listing.
    rewrite <- (length_map info_sku), listed_products_all by done. by rewrite length_map.
  - unfold available_products, unavailable_products, previous_available, status_available.
    split; apply Forall_forall; intros i Hi; apply list_elem_of_In in Hi;
      apply filter_In in Hi as [Hin Hav]; apply list_elem_of_In in Hin;
      rewrite Forall_forall in Hst; specialize (Hst i Hin); rewrite <- Hst.
    + exact Hav.
    + by apply negb_true_iff in Hav.
Qed.

Lemma lower_ascii_idem (c : ascii) : lower_ascii (lower_ascii c) = lower_ascii c.
Proof. destruct c as [[] [] [] [] [] [] [] []]; reflexivity. Qed.

Lemma py_lower_idem (s : string) : py_lower (py_lower s) = py_lower s.
Proof.
  unfold py_lower. induction s as [|c s IH]; cbn; [done|].
  by rewrite lower_ascii_idem, IH.
Qed.

Lemma py_lower_nonempty (s : string) : nonempty (py_lower s) = nonempty s.
Proof. by destruct s. Qed.

(** X23: the priority filter of [status] is case-insensitive: a filter and its
    lower-case form are accepted or rejected alike and select the same
    products. *)
Theorem status_filter_ignores_case (store : gmap string stock_status)
    (catalog : list product) (s : string) :
  invalid_filter (Some (py_lower s)) = invalid_filter (Some s) ∧
  listed_products store (Some (py_lower s)) catalog = listed_products store (Some s) catalog.
Proof.
  assert (given (Some (py_lower s)) = given (Some s)) as Hg by by destruct s.
  split.
  - unfold invalid_filter. rewrite Hg. cbn. by rewrite py_lower_idem.
  - induction catalog as [|p catalog IH]; cbn -[given]; [done|].
    rewrite Hg, IH. cbn. by rewrite py_lower_idem.
Qed.

End StatusMore.

(** ** Properties of [list] and [listd] *)

Section ListingFacts.

Variable py_str : json → string.

Lemma append_cons (c : ascii) (a b : string) : String c a +:+ b = String c (a +:+ b).
Proof. reflexivity. Qed.

Lemma append_nil_r (s : string) : s +:+ "" = s.
Proof. induction s as [|c s IH]; [done|]. by rewrite append_cons, IH. Qed.

Lemma append_assoc (a b c : string) : (a +:+ b) +:+ c = a +:+ b +:+ c.
Proof. induction a as [|x a IH]; [done|]. by rewrite !append_cons, IH. Qed.

Lemma append_eq_nil (a b : string) : a +:+ b = "" → b = "".
Proof. by destruct a. Qed.

Lemma str_len_append (a b : string) : str_len (a +:+ b) = str_len a + str_len b.
Proof.
  induction a as [|x a IH]; [done|].
  rewrite append_cons. cbn [str_len]. rewrite IH. lia.
Qed.

Lemma str_len_newline : str_len newline = 1.
Proof. reflexivity. Qed.

Lemma render_lines_cons (part : string) (g : list string) :
  render_lines (part :: g) = part +:+ newline +:+ render_lines g.
Proof. unfold render_lines, concat_str. cbn [map foldr]. by rewrite append_assoc. Qed.

Lemma render_lines_app (g1 g2 : list string) :
  render_lines (g1 ++ g2) = render_lines g1 +:+ render_lines g2.
Proof.
  induction g1 as [|p g1 IH]; [done|].
  cbn [app]. by rewrite !render_lines_cons, IH, !append_assoc.
Qed.

Lemma render_lines_one (part : string) : render_lines [part] = part +:+ newline.
Proof.
  rewrite render_lines_cons. change (render_lines []) with "".
  by rewrite append_nil_r.
Qed.

Lemma render_lines_nil (g : list string) : nonempty (render_lines g) = false → g = [].
Proof.
  destruct g as [|p g]; [done|]. rewrite render_lines_cons. unfold nonempty.
  intros H%negb_false_iff%String.eqb_eq.
  apply append_eq_nil in H. unfold newline in H. rewrite append_cons in H.
  discriminate.
Qed.

Lemma pack_parts_groups (parts : list string) (gs : list (list string)) (g : list string) :
  Forall (λ g, g ≠ [] ∧ fits g) gs →
  g = [] ∨ fits g →
  ∃ gs' g',
    pack_parts parts (map render_lines gs) (render_lines g) =
      (map render_lines gs', render_lines g') ∧
    concat gs' ++ g' = concat gs ++ g ++ parts ∧
    Forall (λ g, g ≠ [] ∧ fits g) gs' ∧
    (g' = [] ∨ fits g').
Proof.
  revert gs g. induction parts as [|part rest IH]; intros gs g Hgs Hg.
  - exists gs, g. by rewrite app_nil_r.
  - cbn [pack_parts].
    destruct (str_len (render_lines g +:+ part +:+ newline) <=? 1950)%nat eqn:Hfit.
    + apply Nat.leb_le in Hfit.
      assert (render_lines g +:+ part +:+ newline = render_lines (g ++ [part])) as E
        by by rewrite render_lines_app, render_lines_one.
      rewrite E in *.
      destruct (IH gs (g ++ [part]) Hgs) as (gs' & g' & Hp & Hc & Hgs' & Hg').
      { right. by left. }
      exists gs', g'. rewrite Hp, Hc, <- app_assoc. done.
    + rewrite <- (render_lines_one part).
      destruct (nonempty (render_lines g)) eqn:Hne.
      * assert (g ≠ []) as Hgne by (intros ->; discriminate).
        destruct Hg as [->|Hg]; [done|].
        destruct (IH (gs ++ [g]) [part]) as (gs' & g' & Hp & Hc & Hgs' & Hg').
        { apply Forall_app. split; [done|]. by constructor. }
        { right. right. by eexists. }
        exists gs', g'. rewrite map_app in Hp. cbn [map] in Hp. rewrite Hp, Hc.
        rewrite concat_app. cbn [concat]. by rewrite app_nil_r, <- app_assoc.
      * apply render_lines_nil in Hne as ->.
        destruct (IH gs [part] Hgs) as (gs' & g' & Hp & Hc & Hgs' & Hg').
        { right. right. by eexists. }
        exists gs', g'. by rewrite Hp, Hc.
Qed.

Lemma chunk_parts_groups (parts : list string) :
  ∃ groups,
    chunk_parts parts = map render_lines groups ∧
    concat groups = parts ∧
    Forall (λ g, g ≠ [] ∧ fits g) groups.
Proof.
  destruct (pack_parts_groups parts [] []) as (gs' & g' & Hp & Hc & Hgs' & Hg');
    [constructor | by left |].
  unfold chunk_parts. change (pack_parts parts [] "") with
    (pack_parts parts (map render_lines []) (render_lines [])).
  rewrite Hp. cbn [fst snd]. cbn in Hc.
  destruct (nonempty (render_lines g')) eqn:Hne.
  - assert (g' ≠ []) as Hgne by (intros ->; discriminate).
    destruct Hg' as [->|Hg']; [done|].
    exists (gs' ++ [g']). rewrite map_app, concat_app. cbn. rewrite app_nil_r.
    repeat split; [done|]. apply Forall_app. split; [done|]. by constructor.
  - apply render_lines_nil in Hne as ->. exists gs'.
    rewrite app_nil_r in Hc. done.
Qed.

(** X24: the chunks of a long [list] answer are made of whole parts: cutting the
    sequence of parts into consecutive non-empty groups gives exactly the
    chunks, each part followed by a line feed; nothing is dropped, repeated or
    split, and a group of more than one part has at most 1950 characters. *)
Theorem chunks_are_whole_lines (parts : list string) :
  ∃ groups,
    chunk_parts parts = map render_lines groups ∧
    concat groups = parts ∧
    Forall (λ g, g ≠ [] ∧
                 (str_len (render_lines g) ≤ 1950 ∨ ∃ part, g = [part])) groups.
Proof. apply chunk_parts_groups. Qed.

(** X25: when every part has fewer than 1950 characters, every chunk has between
    1 and 1950. *)
Theorem chunks_fit_the_limit (parts : list string) :
  (∀ part, part ∈ parts → str_len part < 1950) →
  Forall (λ chunk, 1 ≤ str_len chunk ≤ 1950) (chunk_parts parts).
Proof.
  intros Hshort.
  destruct (chunk_parts_groups parts) as (groups & -> & Hc & Hall).
  apply Forall_fmap. apply Forall_forall. intros g Hg.
  rewrite Forall_forall in Hall. destruct (Hall g Hg) as [Hne Hfit]. cbn.
  split.
  - destruct g as [|part g]; [done|].
    rewrite render_lines_cons, !str_len_append, str_len_newline. lia.
  - destruct Hfit as [Hfit|[part ->]]; [done|].
    rewrite render_lines_one, str_len_append, str_len_newline.
    assert (part ∈ parts) as Hin.
    { rewrite <- Hc. apply list_elem_of_In, in_concat. exists [part].
      split; [by apply list_elem_of_In | by left]. }
    specialize (Hshort part Hin). lia.
Qed.

Lemma group_append_keys (p : product) (groups : list (string * list product)) (g : string) :
  existsb (λ g0, String.eqb g0.1 g) (group_append p groups) =
  existsb (λ g0, String.eqb g0.1 g) groups.
Proof.
  unfold group_append. induction groups as [|[k l] groups IH]; [done|].
  cbn. rewrite IH. by destruct (String.eqb k _).
Qed.

Lemma group_of_append (p : product) (groups : list (string * list product)) (g : string) :
  group_of (group_append p groups) g =
  group_of groups g ++
  if existsb (λ g0, String.eqb g0.1 g) groups && String.eqb (get_or "medium" (priority p)) g
  then [p] else [].
Proof.
  unfold group_append. induction groups as [|[k l] groups IH]; [done|].
  cbn. destruct (String.eqb_spec k g) as [->|Hne].
  - rewrite String.eqb_sym. cbn.
    destruct (String.eqb _ _); cbn; [by rewrite String.eqb_refl|].
    by rewrite String.eqb_refl, app_nil_r.
  - cbn. rewrite <- IH.
    destruct (String.eqb k _); cbn; by destruct (String.eqb_spec k g).
Qed.

Lemma group_of_products (catalog : list product) (groups : list (string * list product))
    (g : string) :
  group_of (group_products catalog groups) g =
  group_of groups g ++
  if existsb (λ g0, String.eqb g0.1 g) groups then with_priority g catalog else [].
Proof.
  revert groups. induction catalog as [|p catalog IH]; intros groups; cbn.
  - by destruct (existsb _ _); rewrite app_nil_r.
  - rewrite IH, group_append_keys, group_of_append, <- app_assoc. f_equal.
    destruct (existsb _ groups); cbn; [|done].
    by destruct (String.eqb _ g).
Qed.

Lemma groups_hold_exact_priorities_aux (catalog : list product) (g : string) :
  (g ∈ valid_priorities → group_of (priority_groups catalog) g = with_priority g catalog) ∧
  (g ∉ valid_priorities → group_of (priority_groups catalog) g = []).
Proof.
  unfold priority_groups. rewrite group_of_products.
  assert (group_of empty_groups g = []) as ->.
  { unfold empty_groups. cbn [group_of].
    by repeat destruct (String.eqb _ g). }
  cbn [app]. split.
  - intros Hg. unfold valid_priorities in Hg.
    repeat (apply elem_of_cons in Hg as [->|Hg]; [reflexivity|]).
    by apply elem_of_nil in Hg.
  - intros Hg. unfold empty_groups. cbn [existsb fst].
    destruct (String.eqb_spec "top" g) as [<-|_]; [exfalso; apply Hg; set_solver|].
    destruct (String.eqb_spec "high" g) as [<-|_]; [exfalso; apply Hg; set_solver|].
    destruct (String.eqb_spec "medium" g) as [<-|_]; [exfalso; apply Hg; set_solver|].
    destruct (String.eqb_spec "low" g) as [<-|_]; [exfalso; apply Hg; set_solver|].
    done.
Qed.

(** X26: the groups of [list] and [listd] hold, for each of the four priorities,
    the catalog entries with exactly that priority ([medium] when an entry
    has none), in catalog order; an entry with any other priority is in no
    group. *)
Theorem groups_hold_exact_priorities (catalog : list product) (g : string) :
  (g ∈ valid_priorities → group_of (priority_groups catalog) g = with_priority g catalog) ∧
  (g ∉ valid_priorities → group_of (priority_groups catalog) g = []).
Proof. apply groups_hold_exact_priorities_aux. Qed.

Lemma py_slice_page {A} (l : list A) (start : nat) :
  py_slice start ((start + 25) `min` length l) l = take 25 (drop start l).
Proof.
  unfold py_slice. destruct (decide (start + 25 ≤ length l)) as [Hle|Hgt].
  - f_equal. lia.
  - replace ((start + 25) `min` length l - start) with (length l - start) by lia.
    rewrite !take_ge; [done|rewrite length_drop; lia..].
Qed.

Lemma pages_cover {A} (k : nat) (l : list A) :
  length l ≤ k * 25 →
  concat (map (λ page, take 25 (drop (page * 25) l)) (seq 0 k)) = l.
Proof.
  revert l. induction k as [|k IH]; intros l Hl.
  - destruct l; [done | cbn in Hl; lia].
  - cbn [seq map concat]. rewrite <- seq_shift, map_map.
    etrans; [|apply (take_drop 25 l)]. f_equal.
    etrans; [|apply (IH (drop 25 l)); rewrite length_drop; lia].
    f_equal. apply map_ext. intros page.
    replace (S page * 25) with (25 + page * 25) by lia. by rewrite drop_drop.
Qed.

Lemma page_count (n : nat) :
  n ≤ (n + 25 - 1) / 25 * 25 ∧ ∀ page, page < (n + 25 - 1) / 25 → page * 25 < n.
Proof.
  pose proof (Nat.div_mod_eq (n + 25 - 1) 25) as E.
  pose proof (Nat.mod_upper_bound (n + 25 - 1) 25) as Hr.
  split; [lia|]. intros page Hp. nia.
Qed.

Lemma detail_pages_cover (priority : string) (products : list product) :
  products ≠ [] →
  concat (map fields (detail_pages py_str priority products)) = map detail_field products ∧
  Forall (λ e, 1 ≤ length (fields e) ≤ 25) (detail_pages py_str priority products) ∧
  length (detail_pages py_str priority products) = (length products + 25 - 1) / 25 ∧
  detail_pages py_str priority products ≠ [].
Proof.
  intros Hne. unfold detail_pages.
  destruct (page_count (length products)) as [Hcover Hpage].
  set (total_pages := (length products + 25 - 1) / 25) in *.
  split; [|split; [|split]].
  - transitivity (map detail_field
                    (concat (map (λ page, take 25 (drop (page * 25) products))
                                 (seq 0 total_pages)))).
    + rewrite concat_map, !map_map. f_equal. apply map_ext. intros page.
      cbn [fields]. by rewrite py_slice_page.
    + by rewrite pages_cover.
  - apply Forall_fmap, Forall_forall. intros page Hin. cbn.
    apply list_elem_of_In, in_seq in Hin. specialize (Hpage page).
    rewrite length_map, py_slice_page, length_take, length_drop. lia.
  - by rewrite length_map, length_seq.
  - destruct products as [|p products]; [done|].
    assert (0 < total_pages) as Hpos.
    { destruct total_pages; [cbn in Hcover; lia | lia]. }
    destruct total_pages; [lia | done].
Qed.

Lemma valid_filter (s : string) :
  s ≠ "" → py_lower s ∈ valid_priorities →
  invalid_filter (Some s) = false ∧ given (Some s) = true.
Proof.
  intros Hs Hv. unfold invalid_filter, given.
  assert (negb (String.eqb s "") = true) as ->.
  { apply negb_true_iff. by apply String.eqb_neq. }
  split; [|done]. cbn [andb get_or]. apply negb_false_iff.
  unfold str_in. apply existsb_exists. exists (py_lower s).
  split; [by apply list_elem_of_In | apply String.eqb_refl].
Qed.

(** X27: [listd] with a valid priority filter shows the catalog entries of that
    priority, each once and in catalog order, in embeds of 25 fields, the
    last one holding the remainder. *)
Theorem listd_pages_hold_every_product (st : bot_state) (s : string) :
  s ≠ "" → py_lower s ∈ valid_priorities →
  with_priority (py_lower s) (PRODUCTS_TO_MONITOR st) ≠ [] →
  ∃ embeds,
    list_products_detailed py_str st (Some s) = map rich embeds ∧
    concat (map fields embeds) =
      map detail_field (with_priority (py_lower s) (PRODUCTS_TO_MONITOR st)) ∧
    Forall (λ e, 1 ≤ length (fields e) ≤ 25) embeds ∧
    length embeds =
      (length (with_priority (py_lower s) (PRODUCTS_TO_MONITOR st)) + 25 - 1) / 25.
Proof.
  intros Hs Hv Hne. destruct (valid_filter s Hs Hv) as [Hinv Hgiven].
  unfold list_products_detailed.
  destruct (PRODUCTS_TO_MONITOR st) as [|p0 catalog] eqn:Hcat; [done|].
  rewrite Hinv. unfold priorities_to_show. rewrite Hgiven.
  cbn [get_or listd_sections].
  rewrite (proj1 (groups_hold_exact_priorities_aux (p0 :: catalog) (py_lower s)) Hv).
  destruct (with_priority (py_lower s) (p0 :: catalog)) as [|p group] eqn:Hgroup; [done|].
  cbn [app].
  destruct (detail_pages_cover (py_lower s) (p :: group)) as (Hc & Hall & Hlen & Hnil);
    [done|].
  exists (detail_pages py_str (py_lower s) (p :: group)).
  split; [|done].
  by destruct (detail_pages py_str (py_lower s) (p :: group)).
Qed.

(** X28: [list] and [listd] with a valid priority filter that no catalog entry
    has answer with the single text that no product of that priority was
    found. *)
Theorem empty_priority_is_reported (st : bot_state) (s : string) :
  PRODUCTS_TO_MONITOR st ≠ [] →
  s ≠ "" → py_lower s ∈ valid_priorities →
  with_priority (py_lower s) (PRODUCTS_TO_MONITOR st) = [] →
  list_products py_str st (Some s) = [none_found_message (py_lower s)] ∧
  list_products_detailed py_str st (Some s) = [none_found_message (py_lower s)].
Proof.
  intros Hcatalog Hs Hv Hempty. destruct (valid_filter s Hs Hv) as [Hinv Hgiven].
  unfold list_products, list_products_detailed.
  destruct (PRODUCTS_TO_MONITOR st) as [|p0 catalog] eqn:Hcat; [done|].
  rewrite Hinv. unfold priorities_to_show. rewrite Hgiven.
  cbn [get_or list_sections listd_sections].
  rewrite (proj1 (groups_hold_exact_priorities_aux (p0 :: catalog) (py_lower s)) Hv).
  rewrite Hempty. by rewrite Hgiven.
Qed.

(** X29: [debug] answers a request that times out, raises or returns a status
    other than 200 and 404 with the could-not-retrieve text; a 404 is shown
    as a record: not available, total stores unknown, no store. *)
Theorem debug_reports_failure_and_404 (http : http_result) (s z now : string) :
  (fetch_failure http = true →
   debug_product py_str http s z now =
   [text ("Could not retrieve data for SKU " +:+ s +:+ " at " +:+ z)]) ∧
  (∀ body, http = Response 404 body →
   ∃ e, debug_product py_str http s z now = [rich e] ∧
        map field_name (fields e) =
          ["SKU"; "Zip Code"; "Available"; "Total Stores"; "Stores with Stock"] ∧
        map field_value (fields e) =
          [s; z; py_str (JBool false); "Unknown"; str_nat py_str 0]).
Proof.
  split.
  - intros Hf. unfold debug_product.
    by rewrite (fetch_failure_None py_str http s z now Hf).
  - intros body ->. by eexists.
Qed.

End ListingFacts.

(** ** Instances of the properties above *)

Lemma parsed_total_counts_locations_witness :
  parse_stock_response Examples.str_scalar Examples.store_a_response "ABC" "t" =
    Some Examples.store_a_record ∧
  ∃ locations checked,
    item_locations_of Examples.store_a_response = Some locations ∧
    locations_checked Examples.store_a_record = Some checked ∧
    length checked = length locations ∧
    total_stores Examples.store_a_record = Some (length locations).
Proof.
  split; [reflexivity|].
  apply (parsed_total_counts_locations Examples.str_scalar Examples.store_a_response "ABC" "t").
  reflexivity.
Defined.

Lemma parsed_stores_named_and_stocked_witness :
  parse_stock_response Examples.str_scalar Examples.store_a_response "ABC" "t" =
    Some Examples.store_a_record ∧
  ∃ st, stores Examples.store_a_record = Some st ∧
        Forall (λ e, is_Some (name e) ∧ quantities_ok e) st.
Proof.
  split; [reflexivity|].
  apply (parsed_stores_named_and_stocked Examples.str_scalar Examples.store_a_response
           "ABC" "t").
  reflexivity.
Defined.

Lemma malformed_location_entry_discards_response_witness :
  existsb (λ ld, negb (is_object ld)) [Examples.obj_location 1 [Examples.pickup 2]; JInt 5] = true ∧
  parse_stock_response Examples.str_scalar
    (Examples.response_of [Examples.obj_location 1 [Examples.pickup 2]; JInt 5]) "ABC" "t" = None.
Proof.
  split; [reflexivity|].
  apply (malformed_location_entry_discards_response Examples.str_scalar
           [("items", JArr [JObj [("locations",
                                   JArr [Examples.obj_location 1 [Examples.pickup 2]; JInt 5])]])]
           [("locations", JArr [Examples.obj_location 1 [Examples.pickup 2]; JInt 5])]
           [] [Examples.obj_location 1 [Examples.pickup 2]; JInt 5] "ABC" "t");
    reflexivity.
Defined.

Lemma item_without_locations_gives_None_witness :
  dict_get "locations" [("sku", JStr "ABC")] = None ∧
  parse_stock_response Examples.str_scalar
    (JObj [("items", JArr [JObj [("sku", JStr "ABC")]])]) "ABC" "t" = None.
Proof.
  split; [reflexivity|].
  apply (item_without_locations_gives_None Examples.str_scalar
           [("items", JArr [JObj [("sku", JStr "ABC")]])] [("sku", JStr "ABC")] [] "ABC" "t");
    reflexivity.
Defined.

Lemma names_fall_back_to_location_id_witness :
  is_Some (parse_stock_response Examples.str_scalar
             (Examples.response_of [Examples.obj_location 1 [Examples.pickup 2]]) "ABC" "t") ∧
  ∃ r st,
    parse_stock_response Examples.str_scalar
      (Examples.response_of [Examples.obj_location 1 [Examples.pickup 2]]) "ABC" "t" = Some r ∧
    stores r = Some st ∧
    Forall (λ e, name e = Some ("Location " +:+ Examples.str_scalar (locationId e))) st.
Proof.
  split; [by eexists|].
  eexists. 
  destruct (names_fall_back_to_location_id Examples.str_scalar
              [("items", JArr [JObj [("locations",
                                      JArr [Examples.obj_location 1 [Examples.pickup 2]])]])]
              "ABC" "t" _ eq_refl eq_refl) as (st & Hst & Hall).
  exists st. split; [reflexivity|]. split; [exact Hst | exact Hall].
Defined.

Lemma available_needs_parsed_200_witness :
  check_product_availability Examples.str_scalar
    (Response 200 (Some Examples.store_a_response)) "ABC" "90503" "t" =
    Some Examples.store_a_record ∧
  available Examples.store_a_record = true ∧
  ∃ data, Response 200 (Some Examples.store_a_response) = Response 200 (Some data) ∧
          parse_stock_response Examples.str_scalar data "ABC" "t" =
            Some Examples.store_a_record ∧
          ∃ st, stores Examples.store_a_record = Some st ∧ st ≠ [].
Proof.
  split; [reflexivity|]. split; [reflexivity|].
  apply (available_needs_parsed_200 Examples.str_scalar
           (Response 200 (Some Examples.store_a_response)) "ABC" "90503" "t");
    reflexivity.
Defined.

Lemma cycle_touches_only_catalog_skus_witness :
  ("XYZ" ∉ map sku (PRODUCTS_TO_MONITOR Examples.watching)) ∧
  last_stock_status
    (monitor_restocks Examples.str_scalar "42" true Examples.in_stock_everywhere
       Examples.at_t Examples.watching).1 !! "XYZ" =
  last_stock_status Examples.watching !! "XYZ".
Proof.
  assert ("XYZ" ∉ map sku (PRODUCTS_TO_MONITOR Examples.watching)) as H.
  { cbn. intros [E|E%elem_of_nil]%elem_of_cons; [discriminate | done]. }
  split; [exact H|].
  apply (cycle_touches_only_catalog_skus Examples.str_scalar "42" true
           Examples.in_stock_everywhere Examples.at_t Examples.watching).
  exact H.
Defined.

Lemma cycle_of_failures_changes_nothing_witness :
  (∀ i, i < length (PRODUCTS_TO_MONITOR Examples.watching) →
        fetch_failure (Examples.timeouts i) = true) ∧
  monitor_restocks Examples.str_scalar "42" true Examples.timeouts Examples.at_t
    Examples.watching = (Examples.watching, []).
Proof.
  split; [reflexivity|].
  apply (cycle_of_failures_changes_nothing Examples.str_scalar "42" Examples.timeouts
           Examples.at_t Examples.watching).
  reflexivity.
Defined.

Lemma cycle_stores_each_record_witness :
  NoDup (map sku (PRODUCTS_TO_MONITOR Examples.watching)) ∧
  PRODUCTS_TO_MONITOR Examples.watching !! 0%nat = Some Examples.abc ∧
  last_stock_status
    (monitor_restocks Examples.str_scalar "42" true Examples.in_stock_everywhere
       Examples.at_t Examples.watching).1 !! sku Examples.abc =
  Some Examples.store_a_record.
Proof.
  assert (NoDup (map sku (PRODUCTS_TO_MONITOR Examples.watching))) as H.
  { apply NoDup_singleton. }
  split; [exact H|]. split; [reflexivity|].
  apply (cycle_stores_each_record Examples.str_scalar "42" Examples.in_stock_everywhere
           Examples.at_t Examples.watching 0 Examples.abc Examples.store_a_record H);
    reflexivity.
Defined.

Lemma repeated_cycle_is_silent_witness :
  NoDup (map sku (PRODUCTS_TO_MONITOR Examples.watching)) ∧
  length (monitor_restocks Examples.str_scalar "42" true Examples.in_stock_everywhere
            Examples.at_t Examples.watching).2 = 1%nat ∧
  (monitor_restocks Examples.str_scalar "42" true Examples.in_stock_everywhere Examples.at_u
     (monitor_restocks Examples.str_scalar "42" true Examples.in_stock_everywhere
        Examples.at_t Examples.watching).1).2 = [].
Proof.
  assert (NoDup (map sku (PRODUCTS_TO_MONITOR Examples.watching))) as H.
  { apply NoDup_singleton. }
  split; [exact H|]. split; [reflexivity|].
  exact (repeated_cycle_is_silent Examples.str_scalar "42" Examples.in_stock_everywhere
           Examples.at_t Examples.at_u Examples.watching H).
Defined.

Lemma alert_has_eight_fields_witness :
  let m := restock_alert Examples.str_scalar "42" [Examples.abc] Examples.abc
             Examples.store_a_record in
  m ∈ (monitor_product Examples.str_scalar "42" [Examples.abc] Examples.abc
         (Response 200 (Some Examples.store_a_response)) "t" ∅).2 ∧
  ∃ e, msg_embed m = Some e ∧ length (fields e) = 8%nat.
Proof.
  intros m.
  assert (m ∈ (monitor_product Examples.str_scalar "42" [Examples.abc] Examples.abc
                 (Response 200 (Some Examples.store_a_response)) "t" ∅).2) as Hin.
  { change (m ∈ [m]). apply list_elem_of_here. }
  split; [exact Hin|].
  destruct (alert_has_eight_fields Examples.str_scalar "42" [Examples.abc] Examples.abc
              (Response 200 (Some Examples.store_a_response)) "t" ∅ m Hin)
    as (e & st & He & _ & Hnames & _).
  exists e. split; [exact He|].
  rewrite <- (length_map field_name), Hnames. reflexivity.
Defined.

Lemma alert_shows_own_priority_witness :
  NoDup (map sku [Examples.abc]) ∧ Examples.abc ∈ [Examples.abc] ∧
  ∃ e, msg_embed (restock_alert Examples.str_scalar "42" [Examples.abc] Examples.abc
                    Examples.store_a_record) = Some e ∧
       fields e !! 2%nat =
         Some {| field_name := "Priority"; field_value := "HIGH"; inline := true |}.
Proof.
  assert (NoDup (map sku [Examples.abc])) as H by apply NoDup_singleton.
  split; [exact H|]. split; [apply list_elem_of_here|].
  destruct (alert_shows_own_priority Examples.str_scalar "42" [Examples.abc] Examples.abc
              Examples.store_a_record H (list_elem_of_here _ _))
    as (e & He & _ & _ & Hp & _).
  exists e. split; [exact He | exact Hp].
Defined.

Lemma shared_sku_alerts_every_cycle_witness :
  sku Examples.abc_elsewhere = sku Examples.abc ∧
  length (monitor_restocks Examples.str_scalar "42" true Examples.in_stock_first Examples.at_u
            (monitor_restocks Examples.str_scalar "42" true Examples.in_stock_first
               Examples.at_t Examples.watching_twice).1).2 = 1%nat.
Proof.
  split; [reflexivity|]. unfold Examples.watching_twice.
  rewrite (shared_sku_alerts_every_cycle Examples.str_scalar "42" Examples.abc
             Examples.abc_elsewhere Examples.in_stock_first Examples.at_t Examples.at_u ∅
             _ _ _ eq_refl eq_refl eq_refl eq_refl eq_refl eq_refl).
  reflexivity.
Defined.

Lemma add_appends_or_keeps_witness :
  existsb (same_product "XYZ" "90503") (PRODUCTS_TO_MONITOR Examples.watching) = false ∧
  PRODUCTS_TO_MONITOR (add_product Examples.watching "XYZ" "90503" None).1 =
  [Examples.abc;
   {| sku := "XYZ"; zip_code := "90503"; product_name := Some "XYZ";
      priority := None; category := None; set_name := None |}].
Proof.
  split; [reflexivity|].
  apply (add_appends_or_keeps Examples.watching "XYZ" "90503" None).
  reflexivity.
Defined.

Lemma add_keeps_pairs_distinct_witness :
  NoDup (map pair_of (PRODUCTS_TO_MONITOR Examples.watching)) ∧
  NoDup (map pair_of (PRODUCTS_TO_MONITOR (add_product Examples.watching "ABC" "10001" None).1)).
Proof.
  assert (NoDup (map pair_of (PRODUCTS_TO_MONITOR Examples.watching))) as H.
  { apply NoDup_singleton. }
  split; [exact H|].
  exact (add_keeps_pairs_distinct Examples.watching "ABC" "10001" None H).
Defined.

Lemma add_then_remove_restores_catalog_witness :
  existsb (same_product "XYZ" "90503") (PRODUCTS_TO_MONITOR Examples.watching) = false ∧
  PRODUCTS_TO_MONITOR
    (remove_product (add_product Examples.watching "XYZ" "90503" (Some "Gadget")).1
       "XYZ" "90503").1 = PRODUCTS_TO_MONITOR Examples.watching.
Proof.
  split; [reflexivity|].
  rewrite (add_then_remove_restores_catalog Examples.watching "XYZ" "90503" (Some "Gadget")
             eq_refl).
  reflexivity.
Defined.

Lemma remove_unmonitors_pair_witness :
  NoDup (map pair_of (PRODUCTS_TO_MONITOR Examples.watching_twice)) ∧
  existsb (same_product "ABC" "10001") (PRODUCTS_TO_MONITOR Examples.watching_twice) = true ∧
  PRODUCTS_TO_MONITOR (remove_product Examples.watching_twice "ABC" "10001").1 =
  List.filter (λ p, negb (same_product "ABC" "10001" p))
    (PRODUCTS_TO_MONITOR Examples.watching_twice).
Proof.
  assert (NoDup (map pair_of (PRODUCTS_TO_MONITOR Examples.watching_twice))) as H.
  { cbn. apply NoDup_cons. split; [|apply NoDup_singleton].
    intros E%list_elem_of_singleton. discriminate. }
  split; [exact H|]. split; [reflexivity|].
  apply (remove_unmonitors_pair Examples.watching_twice "ABC" "10001" H eq_refl).
Defined.

Lemma status_partitions_the_catalog_witness :
  given None = false ∧
  map info_sku (listed_products (last_stock_status (Examples.all_in_stock 3)) None
                  (PRODUCTS_TO_MONITOR (Examples.all_in_stock 3))) =
  map sku (PRODUCTS_TO_MONITOR (Examples.all_in_stock 3)).
Proof.
  split; [reflexivity|].
  apply (status_partitions_the_catalog (Examples.all_in_stock 3) None eq_refl).
Defined.

Lemma chunks_fit_the_limit_witness :
  (∀ part, part ∈ ["• Widget - ABC"; "• Gadget - XYZ"] → str_len part < 1950) ∧
  Forall (λ chunk, 1 ≤ str_len chunk ≤ 1950)
         (chunk_parts ["• Widget - ABC"; "• Gadget - XYZ"]).
Proof.
  assert (∀ part, part ∈ ["• Widget - ABC"; "• Gadget - XYZ"] → str_len part < 1950) as H.
  { intros part [->|[->|E%elem_of_nil]%elem_of_cons]%elem_of_cons;
      [by apply Nat.ltb_lt..|done]. }
  split; [exact H|].
  exact (chunks_fit_the_limit ["• Widget - ABC"; "• Gadget - XYZ"] H).
Defined.

Lemma groups_hold_exact_priorities_witness :
  "high" ∈ valid_priorities ∧
  group_of (priority_groups [Examples.abc; Examples.numbered 0]) "high" = [Examples.abc].
Proof.
  assert ("high" ∈ valid_priorities) as H.
  { apply list_elem_of_further, list_elem_of_here. }
  split; [exact H|].
  rewrite (proj1 (groups_hold_exact_priorities [Examples.abc; Examples.numbered 0] "high") H).
  reflexivity.
Defined.

Lemma listd_pages_hold_every_product_witness :
  "HIGH" ≠ "" ∧ py_lower "HIGH" ∈ valid_priorities ∧
  with_priority (py_lower "HIGH") (PRODUCTS_TO_MONITOR Examples.watching) ≠ [] ∧
  ∃ embeds,
    list_products_detailed Examples.str_scalar Examples.watching (Some "HIGH") =
      map rich embeds ∧
    length embeds = 1%nat.
Proof.
  assert (py_lower "HIGH" ∈ valid_priorities) as H.
  { apply list_elem_of_further, list_elem_of_here. }
  split; [discriminate|]. split; [exact H|]. split; [discriminate|].
  destruct (listd_pages_hold_every_product Examples.str_scalar Examples.watching "HIGH")
    as (embeds & Hsent & _ & _ & Hlen); [discriminate | exact H | discriminate |].
  exists embeds. split; [exact Hsent | exact Hlen].
Defined.

Lemma empty_priority_is_reported_witness :
  PRODUCTS_TO_MONITOR Examples.watching ≠ [] ∧ "low" ≠ "" ∧
  py_lower "low" ∈ valid_priorities ∧
  with_priority (py_lower "low") (PRODUCTS_TO_MONITOR Examples.watching) = [] ∧
  list_products Examples.str_scalar Examples.watching (Some "low") =
    [none_found_message "low"].
Proof.
  assert (py_lower "low" ∈ valid_priorities) as H.
  { do 3 apply list_elem_of_further. apply list_elem_of_here. }
  split; [discriminate|]. split; [discriminate|]. split; [exact H|]. split; [reflexivity|].
  apply (empty_priority_is_reported Examples.str_scalar Examples.watching "low");
    [discriminate | discriminate | exact H | reflexivity].
Defined.

Lemma debug_reports_failure_and_404_witness :
  fetch_failure TimeoutError = true ∧
  debug_product Examples.str_scalar TimeoutError "ABC" "90503" "t" =
  [text "Could not retrieve data for SKU ABC at 90503"].
Proof.
  split; [reflexivity|].
  apply (debug_reports_failure_and_404 Examples.str_scalar TimeoutError "ABC" "90503" "t").
  reflexivity.
Defined.

Lemma record_invariants_when_no_id_is_nan_witness :
  parse_stock_response Examples.str_scalar Examples.merge_and_append_response "ABC" "t" ≠ None ∧
  ∃ r st total locations,
    parse_stock_response Examples.str_scalar Examples.merge_and_append_response "ABC" "t" =
      Some r ∧
    stores r = Some st ∧ total_stores r = Some total ∧
    item_locations_of Examples.merge_and_append_response = Some locations ∧
    Forall (λ ld, is_nan (location_id_of ld) = false) locations ∧
    length st ≤ total.
Proof.
  split; [discriminate|]. eexists.
  destruct (record_invariants_when_no_id_is_nan Examples.str_scalar
              Examples.merge_and_append_response "ABC" "t" _ eq_refl)
    as (st & total & locations & Hst & Htotal & Hloc & _ & _ & Himp).
  exists st, total, locations.
  split; [reflexivity|]. split; [exact Hst|]. split; [exact Htotal|]. split; [exact Hloc|].
  assert (Forall (λ ld, is_nan (location_id_of ld) = false) locations) as Hnan.
  { injection Hloc as <-. by repeat constructor. }
  split; [exact Hnan | exact (Himp Hnan)].
Defined.

Lemma cycle_sends_at_most_one_alert_per_entry_witness :
  false = false ∧
  monitor_restocks Examples.str_scalar "42" false Examples.in_stock_everywhere
    Examples.at_t Examples.watching = (Examples.watching, []).
Proof.
  split; [reflexivity|].
  apply (cycle_sends_at_most_one_alert_per_entry Examples.str_scalar "42" false
           Examples.in_stock_everywhere Examples.at_t Examples.watching).
  reflexivity.
Defined.
